(** * SCAP Prometheus exporter: a shallow embedding and its properties

    The development follows [scap_prometheus_exporter.py] and
    [metrics_server.py]:

    - [Py]    exceptions as values ([outcome]), truthiness, [str()];
    - [ET]    the part of [xml.etree.ElementTree] the parser uses;
    - [PyLib], [OS], [PromClient], [Yaml] and [Time]: the library and
      operating-system calls the code makes; they are interfaces, and the
      general theorems hold for every implementation of them;
    - [SCAPParser.parse_results], [SCAPScanner.scan],
      [PrometheusExporter.update_metrics], the two [do_GET] handlers and
      [SCAPExporterDaemon.scan_and_update];
    - the daemon's constructor and scan loop, and the two [main] functions;
    - a reference implementation of the interfaces and the sample document
      of [test_exporter.py], used for the concrete examples.

    Python [int] is [Z]; a [float] is the rational it denotes, in [Q], and a
    float operation is the exact operation followed by the rounding of the
    runtime ([fround]); a [dict] is a [gmap]. *)

From Stdlib Require Import ZArith QArith String Ascii List.
From stdpp Require Import base option list strings gmap.

Set Warnings "-register-all".
#[local] Open Scope string_scope.
#[local] Open Scope list_scope.
#[local] Open Scope Z_scope.

(** ** Python values and exceptions *)

Module Py.

(** The [Exception] subclasses the code can meet. [BaseException]s that are
    not [Exception]s (KeyboardInterrupt, SystemExit) are not modelled. *)
Inductive exn : Type :=
| AttributeError | KeyError | SyntaxError | TypeError | ValueError
| ParseError | FileNotFoundError | OSError | OverflowError | ZeroDivisionError.

(** A computation either returns a value or raises. *)
Inductive outcome (A : Type) : Type :=
| Ok (a : A)
| Raise (e : exn).
Arguments Ok {A} a.
Arguments Raise {A} e.

#[export] Instance outcome_ret : MRet outcome := λ A a, Ok a.
#[export] Instance outcome_bind : MBind outcome := λ A B f m,
  match m with Ok a => f a | Raise e => Raise e end.

(** [try: body / except Exception as e: handler e] *)
Definition try_except {A} (body : outcome A) (handler : exn → outcome A) : outcome A :=
  match body with Ok a => Ok a | Raise e => handler e end.

(** [for x in l: s = body s x], stopping at the first exception. *)
Fixpoint for_each {S A} (body : S → A → outcome S) (s : S) (l : list A) : outcome S :=
  match l with
  | [] => Ok s
  | x :: l' => s' ← body s x; for_each body s' l'
  end.

(** [d[k]] *)
Definition getitem {V} (d : gmap string V) (k : string) : outcome V :=
  match d !! k with Some v => Ok v | None => Raise KeyError end.

(** [d[k] += 1] *)
Definition iadd1 (d : gmap string Z) (k : string) : outcome (gmap string Z) :=
  v ← getitem d k; Ok (<[k := v + 1]> d).

(** Truthiness of an [Optional[str]]: [None] and [''] are false. *)
Definition truthy (s : option string) : bool :=
  match s with Some (String _ _) => true | _ => false end.

(** [a or b] on an [Optional[str]] with a [str] fallback. *)
Definition or_else (a : option string) (b : string) : string :=
  match a with Some (String c s) => String c s | _ => b end.

(** [str(x)] for an [Optional[str]]. *)
Definition str (x : option string) : string :=
  match x with Some s => s | None => "None" end.

(** [s.replace(c, new)] for a one-character pattern. *)
Fixpoint replace_char (c : ascii) (new : string) (s : string) : string :=
  match s with
  | EmptyString => EmptyString
  | String a s' =>
      if Ascii.eqb a c then new +:+ replace_char c new s'
      else String a (replace_char c new s')
  end.

End Py.
Import Py.

(** ** xml.etree.ElementTree *)

Module ET.

(** An element: qualified tag [{uri}local], attribute dict, text ([None]
    when the element has no character data), children in document order. *)
Inductive element : Type :=
| Element (tag : string) (attrib : gmap string string)
          (text : option string) (children : list element).

Definition tag (e : element) : string := let 'Element t _ _ _ := e in t.
Definition attrib (e : element) : gmap string string := let 'Element _ a _ _ := e in a.
Definition text (e : element) : option string := let 'Element _ _ x _ := e in x.
Definition children (e : element) : list element := let 'Element _ _ _ c := e in c.

(** [e.get(key, default)] *)
Definition get (e : element) (key default : string) : string :=
  match attrib e !! key with Some v => v | None => default end.

(** [e.iter()]: the element and all its descendants, in document order. *)
Fixpoint iter (e : element) : list element :=
  let 'Element _ _ _ cs := e in e :: (cs ≫= iter).

(** [e.findall('p:name', ns)]: the direct children with that tag. *)
Definition findall (e : element) (qtag : string) : list element :=
  filter (λ c, tag c = qtag) (children e).

(** [e.find('p:name', ns)]: the first such child. *)
Definition find (e : element) (qtag : string) : option element :=
  head (findall e qtag).

(** The elements below [e], [e] itself excluded (ElementPath's [//]). *)
Definition descendants (e : element) : list element := children e ≫= iter.

(** [e.find('.//p:name', ns)]: the first descendant with that tag. *)
Definition find_descendant (e : element) (qtag : string) : option element :=
  head (filter (λ c, tag c = qtag) (descendants e)).

End ET.
Import ET.

(** ** Library calls of the parser *)

(** What [parse_results] asks of the Python runtime and its libraries.
    - [str_lower s] is [s.lower()];
    - [find_rule b rid] is the call [b.find(path, ns)] with the path
      [.//xccdf:Rule[@id=...]] built from the rule id [rid]: what ElementPath
      does with it (a match, no match, or a [SyntaxError] for an id that
      breaks the predicate) is the library's answer;
    - [iso_timestamp s] is [datetime.fromisoformat(s).timestamp()], [None]
      when either call raises;
    - [fround] rounds an exact result to a float. Of binary64 rounding the
      proofs use that it is monotone and leaves 0, 1 and 100 as they are. *)
Class PyLib : Type := {
  str_lower : string → string;
  find_rule : element → string → outcome (option element);
  iso_timestamp : string → option Q;
  fround : Q → Q;
  fround_le : ∀ x y : Q, (x <= y)%Q → (fround x <= fround y)%Q;
  fround_0 : (fround 0 == 0)%Q;
  fround_1 : (fround 1 == 1)%Q;
  fround_100 : (fround 100 == 100)%Q;
}.

(** [a / b] on two [int]s: the correctly rounded quotient. *)
Definition truediv `{PyLib} (a b : Z) : outcome Q :=
  if decide (b = 0) then Raise ZeroDivisionError
  else Ok (fround (inject_Z a / inject_Z b)).

(** [x * y] on two [float]s. *)
Definition fmul `{PyLib} (x y : Q) : Q := fround (x * y).

(** A file system: path to file. The code reads files only through
    [ET.parse], so a file is represented by what [ET.parse] makes of it:
    the root element, or the exception for content that is not
    well-formed XML. *)
Abbreviation filesystem := (gmap string (outcome element)).

(** ** SCAPResult *)

Record rule_detail : Type := RuleDetail {
  rule_id : string;
  title : string;
  result : string;
  severity : string;
}.

(** The dataclass. [hostname] is annotated [str], but [parse_results] stores
    [target_elem.text] there, which is [None] for an empty target element. *)
Record SCAPResult : Type := mkSCAPResult {
  hostname : option string;
  profile : string;
  scan_time : Q;
  total_rules : Z;
  passed_rules : Z;
  failed_rules : Z;
  error_rules : Z;
  unknown_rules : Z;
  notapplicable_rules : Z;
  notchecked_rules : Z;
  informational_rules : Z;
  compliance_score : Q;
  severity_high_failed : Z;
  severity_medium_failed : Z;
  severity_low_failed : Z;
  severity_info_failed : Z;
  benchmark_id : string;
  benchmark_version : string;
  rule_details : list rule_detail;
}.

(** ** SCAPParser *)

Module SCAPParser.

(** [self.namespaces['xccdf']], and a tag qualified with it. *)
Definition xccdf_ns : string := "http://checklists.nist.gov/xccdf/1.2".
Definition xccdf (local : string) : string := "{" +:+ xccdf_ns +:+ "}" +:+ local.

(** [ET.parse(xml_file).getroot()] *)
Definition ET_parse (fs : filesystem) (xml_file : string) : outcome element :=
  match fs !! xml_file with
  | Some file => file
  | None => Raise FileNotFoundError
  end.

(** The counters of [parse_results], all zero. *)
Definition initial_metrics : gmap string Z :=
  {[ "total_rules" := 0; "passed_rules" := 0; "failed_rules" := 0;
     "error_rules" := 0; "unknown_rules" := 0; "notapplicable_rules" := 0;
     "notchecked_rules" := 0; "informational_rules" := 0;
     "severity_high_failed" := 0; "severity_medium_failed" := 0;
     "severity_low_failed" := 0; "severity_info_failed" := 0 ]}.

Definition status_mapping : gmap string string :=
  {[ "pass" := "passed_rules"; "fail" := "failed_rules";
     "error" := "error_rules"; "unknown" := "unknown_rules";
     "notapplicable" := "notapplicable_rules";
     "notchecked" := "notchecked_rules";
     "informational" := "informational_rules" ]}.

(** The loop state: [metrics] and [rule_details]. *)
Record loop_state : Type := LoopState {
  metrics : gmap string Z;
  details : list rule_detail;
}.

(** [f'severity_{severity}_failed'] *)
Definition severity_key (severity : string) : string :=
  "severity_" +:+ severity +:+ "_failed".

(** Severity and title of a rule-result, from its rule definition. *)
Definition resolve_rule `{PyLib} (rule_def : option element) (rule_id : string)
  : string * string :=
  match rule_def with
  | None => ("unknown", rule_id)
  | Some d =>
      (str_lower (get d "severity" "unknown"),
       match find d (xccdf "title") with
       | Some title_elem => or_else (text title_elem) rule_id
       | None => rule_id
       end)
  end.

(** One iteration of [for rule_result in test_result.findall(...)]. *)
Definition process_rule_result `{PyLib} (benchmark : element)
    (st : loop_state) (rule_result : element) : outcome loop_state :=
  let rule_id := get rule_result "idref" "" in
  m1 ← iadd1 (metrics st) "total_rules";
  match find rule_result (xccdf "result") with
  | None => Ok (LoopState m1 (details st))              (* continue *)
  | Some result_elem =>
      result_status ← match text result_elem with
                      | Some t => Ok (str_lower t)
                      | None => Raise AttributeError
                      end;
      m2 ← match status_mapping !! result_status with
           | Some key => iadd1 m1 key
           | None => Ok m1
           end;
      rule_def ← find_rule benchmark rule_id;
      let '(severity, rule_title) := resolve_rule rule_def rule_id in
      m3 ← (if decide (result_status = "fail") then
              if decide (is_Some (m2 !! severity_key severity))
              then iadd1 m2 (severity_key severity)
              else Ok m2
            else Ok m2);
      Ok (LoopState m3
            (details st ++ [RuleDetail rule_id rule_title result_status severity]))
  end.

(** [compliance_score], from the final counters. *)
Definition score `{PyLib} (m : gmap string Z) : outcome Q :=
  total ← getitem m "total_rules";
  if decide (0 < total) then
    na ← getitem m "notapplicable_rules";
    nc ← getitem m "notchecked_rules";
    let applicable_rules := total - na - nc in
    if decide (0 < applicable_rules) then
      passed ← getitem m "passed_rules";
      q ← truediv passed applicable_rules;
      Ok (fmul q 100)
    else Ok 0%Q
  else Ok 0%Q.

(** [SCAPResult(..., **metrics)]: every key of [metrics] is a keyword
    argument; a missing or an unexpected one is a [TypeError]. *)
Definition build_result (target_hostname : option string) (profile : string)
    (scan_time compliance_score : Q) (benchmark_id benchmark_version : string)
    (rule_details : list rule_detail) (m : gmap string Z) : outcome SCAPResult :=
  match m !! "total_rules", m !! "passed_rules", m !! "failed_rules",
        m !! "error_rules", m !! "unknown_rules", m !! "notapplicable_rules",
        m !! "notchecked_rules", m !! "informational_rules",
        m !! "severity_high_failed", m !! "severity_medium_failed",
        m !! "severity_low_failed", m !! "severity_info_failed" with
  | Some total, Some passed, Some failed, Some error, Some unknown, Some na,
    Some nc, Some informational, Some high, Some medium, Some low, Some info =>
      if decide (size m = 12%nat) then
        Ok (mkSCAPResult target_hostname profile scan_time total passed failed
              error unknown na nc informational compliance_score
              high medium low info benchmark_id benchmark_version rule_details)
      else Raise TypeError
  | _, _, _, _, _, _, _, _, _, _, _, _ => Raise TypeError
  end.

(** The test-result subtree: the root itself or the first one below it. *)
Definition locate_test_result (root : element) : option element :=
  if decide (tag root = "{http://checklists.nist.gov/xccdf/1.2}TestResult")
  then Some root
  else find_descendant root (xccdf "TestResult").

(** [scan_time]: the start-time element when it parses, else [now]. *)
Definition scan_time_of `{PyLib} (now : Q) (test_result : element) : Q :=
  match find test_result (xccdf "start-time") with
  | Some start_time_elem =>
      match text start_time_elem with
      | Some t =>
          match iso_timestamp (replace_char "Z" "+00:00" t) with
          | Some ts => ts
          | None => now                                   (* except: pass *)
          end
      | None => now                                       (* except: pass *)
      end
  | None => now
  end.

(** The body of the [try] block. [now] is the value of [time.time()]. *)
Definition parse_results_body `{PyLib} (now : Q) (fs : filesystem)
    (xml_file : string) (hostname : option string) : outcome (option SCAPResult) :=
  root ← ET_parse fs xml_file;
  match find_descendant root (xccdf "Benchmark") with
  | None => Ok None
  | Some benchmark =>
      let benchmark_id := get benchmark "id" "unknown" in
      let benchmark_version := get benchmark "version" "unknown" in
      match locate_test_result root with
      | None => Ok None
      | Some test_result =>
          let profile :=
            match find test_result (xccdf "profile") with
            | Some profile_elem => get profile_elem "idref" "unknown"
            | None => "unknown"
            end in
          let target_hostname :=
            match find test_result (xccdf "target") with
            | Some target_elem => text target_elem
            | None => Some (or_else hostname "unknown")
            end in
          let scan_time := scan_time_of now test_result in
          st ← for_each (process_rule_result benchmark)
                 (LoopState initial_metrics [])
                 (findall test_result (xccdf "rule-result"));
          compliance_score ← score (metrics st);
          r ← build_result target_hostname profile scan_time compliance_score
                benchmark_id benchmark_version (details st) (metrics st);
          Ok (Some r)
      end
  end.

(** [parse_results]: the body under [except Exception: return None]. *)
Definition parse_results `{PyLib} (now : Q) (fs : filesystem)
    (xml_file : string) (hostname : option string) : outcome (option SCAPResult) :=
  try_except (parse_results_body now fs xml_file hostname) (λ _, Ok None).

End SCAPParser.
Import SCAPParser.

(** ** SCAPScanner *)

(** What [subprocess.run] did: the process ended with a return code and
    stderr text, the 300 s timeout expired, or the call raised (for
    instance the binary does not exist). *)
Inductive run_result : Type :=
| Completed (returncode : Z) (stderr : string)
| TimeoutExpired
| RunFailed (e : exn).

(** The operating system as the code uses it. Each call sees the file
    system and may change it.
    - [mkstemp fs] is [tempfile.mkstemp(suffix='.xml', prefix='scap_results_')]
      followed by [os.close]: the new path and the file system with it;
    - [glob fs dir pattern] is [list(Path(dir).glob(pattern))] as strings;
    - [subprocess_run cmd fs] runs the scanner;
    - [nodename] is [os.uname().nodename]. *)
Class OS : Type := {
  mkstemp : filesystem → outcome (string * filesystem);
  glob : filesystem → string → string → list string;
  subprocess_run : list string → filesystem → run_result * filesystem;
  nodename : string;
}.

(** [os.unlink(path)] *)
Definition unlink (path : string) (fs : filesystem) : outcome filesystem :=
  match fs !! path with
  | Some _ => Ok (delete path fs)
  | None => Raise FileNotFoundError
  end.

Module SCAPScanner.

(** [self.oscap_binary] and [self.content_dir]. *)
Record t : Type := Scanner {
  oscap_binary : string;
  content_dir : string;
}.

(** [__init__]: the defaults of [config.get]. *)
Definition init (config : gmap string string) : t :=
  Scanner (default "oscap" (config !! "oscap_binary"))
          (default "/usr/share/xml/scap/ssg/content" (config !! "content_dir")).

(** The content file: the caller's when truthy, else the first match of
    [ssg-*.xml] in the content directory; [None] when there is none. *)
Definition resolve_content `{OS} (self : t) (fs : filesystem)
    (content_file : option string) : option string :=
  if truthy content_file then content_file
  else head (glob fs (content_dir self) "ssg-*.xml").

(** The [oscap] command line. *)
Definition build_cmd (self : t) (profile results_file : string)
    (target : option string) (content_file : string) : list string :=
  [oscap_binary self; "xccdf"; "eval"; "--profile"; profile;
   "--results"; results_file]
  ++ (if truthy target then ["--target"; or_else target ""] else [])
  ++ [content_file].

(** [scan]: the returned path ([None] on failure) and the file system
    left behind. An exception anywhere returns [None]. *)
Definition scan `{OS} (self : t) (profile : string)
    (content_file target : option string) (fs : filesystem)
  : option string * filesystem :=
  match mkstemp fs with
  | Raise _ => (None, fs)
  | Ok (results_file, fs1) =>
      match resolve_content self fs1 content_file with
      | None => (None, fs1)
      | Some content =>
          let cmd := build_cmd self profile results_file target content in
          match subprocess_run cmd fs1 with
          | (Completed returncode stderr, fs2) =>
              if decide (2 < returncode) then
                match unlink results_file fs2 with
                | Ok fs3 => (None, fs3)
                | Raise _ => (None, fs2)
                end
              else (Some results_file, fs2)
          | (TimeoutExpired, fs2) => (None, fs2)
          | (RunFailed _, fs2) => (None, fs2)
          end
      end
  end.

End SCAPScanner.

(** ** PrometheusExporter *)

(** The client library calls of the exporter.
    - [generate_latest reg] is the text exposition of a registry;
    - [fromtimestamp_isoformat t] is
      [datetime.fromtimestamp(t).isoformat()], raising for a timestamp
      outside the platform's range. *)
Class PromClient (Registry : Type) : Type := {
  generate_latest : Registry → outcome string;
  fromtimestamp_isoformat : Q → outcome string;
}.

Module PrometheusExporter.

(** A labelled gauge: label values to the value last [set]. *)
Abbreviation Gauge := (gmap (list string) Q).

(** The six metrics of [_setup_metrics]. *)
Record Registry : Type := mkRegistry {
  g_compliance_score : Gauge;
  g_total_rules : Gauge;
  g_rules_by_status : Gauge;
  g_failed_by_severity : Gauge;
  g_last_scan_timestamp : Gauge;
  i_scan_info : gmap (list string) (list (string * string));
}.

Record t : Type := Exporter {
  registry : Registry;
  latest_results : gmap string SCAPResult;
}.

(** [__init__]: metrics registered, no sample, no stored result. *)
Definition init : t := Exporter (mkRegistry ∅ ∅ ∅ ∅ ∅ ∅) ∅.

(** [gauge.labels(l1, l2, l3, extra).set(count)] for each entry of a dict. *)
Definition set_each (labels : list string) (entries : list (string * Z))
    (g : Gauge) : Gauge :=
  foldl (λ g e, <[labels ++ [e.1] := inject_Z e.2]> g) g entries.

(** [f"{result.hostname}_{result.profile}"] *)
Definition result_key (result : SCAPResult) : string :=
  str (hostname result) +:+ "_" +:+ profile result.

(** [info.labels(l1, l2)]: the child of these label values, made without
    labels of its own when the metric has none for them yet. *)
Definition labels_child (labels : list string)
    (i : gmap (list string) (list (string * string)))
  : gmap (list string) (list (string * string)) :=
  match i !! labels with
  | Some _ => i
  | None => <[labels := []]> i
  end.

(** [update_metrics]: the exporter after the call and how the call ended.
    In the [scan_info] step the child is looked up before the argument of
    [info] is evaluated, so an exception of the time formatting leaves the
    gauges updated, the child registered and the stored results as they
    were. The label values go through [str()]. *)
Definition update_metrics `{PromClient Registry} (self : t) (result : SCAPResult)
  : t * outcome unit :=
  let labels := [str (hostname result); profile result; benchmark_id result] in
  let reg := registry self in
  let status_metrics :=
    [("passed", passed_rules result); ("failed", failed_rules result);
     ("error", error_rules result); ("unknown", unknown_rules result);
     ("notapplicable", notapplicable_rules result);
     ("notchecked", notchecked_rules result);
     ("informational", informational_rules result)] in
  let severity_metrics :=
    [("high", severity_high_failed result);
     ("medium", severity_medium_failed result);
     ("low", severity_low_failed result);
     ("info", severity_info_failed result)] in
  let reg1 :=
    mkRegistry
      (<[labels := compliance_score result]> (g_compliance_score reg))
      (<[labels := inject_Z (total_rules result)]> (g_total_rules reg))
      (set_each labels status_metrics (g_rules_by_status reg))
      (set_each labels severity_metrics (g_failed_by_severity reg))
      (<[labels := scan_time result]> (g_last_scan_timestamp reg))
      (labels_child [str (hostname result); profile result] (i_scan_info reg)) in
  match fromtimestamp_isoformat (scan_time result) with
  | Raise e => (Exporter reg1 (latest_results self), Raise e)
  | Ok iso =>
      let info := [("benchmark_id", benchmark_id result);
                   ("benchmark_version", benchmark_version result);
                   ("scan_time", iso)] in
      let reg2 :=
        mkRegistry (g_compliance_score reg1) (g_total_rules reg1)
          (g_rules_by_status reg1) (g_failed_by_severity reg1)
          (g_last_scan_timestamp reg1)
          (<[[str (hostname result); profile result] := info]> (i_scan_info reg1)) in
      (Exporter reg2 (<[result_key result := result]> (latest_results self)), Ok ())
  end.

End PrometheusExporter.
Import PrometheusExporter.

(** ** HTTP handlers *)

(** What a handler writes after the headers. *)
Inductive body : Type :=
| Exposition (text : string)                       (* [generate_latest] output *)
| HealthPayload (json : list (string * string))    (* a fixed JSON object *)
| ResultsPayload (results : gmap string SCAPResult) (* [json.dumps] of the dict *)
| ErrorPage.                                        (* [send_error] *)

Record response : Type := Response {
  status : Z;
  content_type : string;
  payload : body;
}.

(** [self.send_error(code)] *)
Definition send_error (code : Z) : response :=
  Response code "text/html;charset=utf-8" ErrorPage.

Module MetricsHTTPHandler.

(** [do_GET] of [scap_prometheus_exporter.py]. *)
Definition do_GET `{PromClient Registry} (exporter : PrometheusExporter.t)
    (path : string) : response :=
  if decide (path = "/metrics") then
    match generate_latest (registry exporter) with
    | Ok metrics_output =>
        Response 200 "text/plain; charset=utf-8" (Exposition metrics_output)
    | Raise _ => send_error 500
    end
  else if decide (path = "/health") then
    Response 200 "application/json" (HealthPayload [("status", "healthy")])
  else if decide (path = "/results") then
    Response 200 "application/json" (ResultsPayload (latest_results exporter))
  else send_error 404.

End MetricsHTTPHandler.

Module MetricsHandler.

(** [do_GET] of [metrics_server.py]; [exporter] is the module-level
    variable, [None] until [main] assigns it. *)
Definition do_GET `{PromClient Registry} (exporter : option PrometheusExporter.t)
    (path : string) : response :=
  if decide (path = "/metrics") then
    match exporter with
    | Some e =>
        match generate_latest (registry e) with
        | Ok metrics_output =>
            Response 200 "text/plain; charset=utf-8" (Exposition metrics_output)
        | Raise _ => send_error 500
        end
    | None => send_error 503
    end
  else if decide (path = "/health") then
    Response 200 "application/json"
      (HealthPayload [("status", "healthy"); ("metrics", "available")])
  else send_error 404.

End MetricsHandler.

(** ** SCAPExporterDaemon *)

Module SCAPExporterDaemon.

(** [config.get('hostname')] when configured, the scanner and the one
    exporter the daemon owns. *)
Record t : Type := Daemon {
  config_hostname : option string;
  scanner : SCAPScanner.t;
  exporter : PrometheusExporter.t;
}.

Definition with_exporter (self : t) (e : PrometheusExporter.t) : t :=
  Daemon (config_hostname self) (scanner self) e.

(** [scan_and_update]: one scan cycle. Every exception is logged and the
    cycle ends. [now] is the clock reading the parser takes. *)
Definition scan_and_update `{PyLib} `{OS} `{PromClient Registry}
    (now : Q) (self : t) (profile : string) (content_file : option string)
    (fs : filesystem) : t * filesystem :=
  let '(results_file, fs1) :=
    SCAPScanner.scan (scanner self) profile content_file None fs in
  match results_file with
  | Some (String c s as path) =>
      let hostname := default nodename (config_hostname self) in
      match parse_results now fs1 path (Some hostname) with
      | Ok result =>
          match unlink path fs1 with
          | Ok fs2 =>
              match result with
              | Some r =>
                  (with_exporter self (update_metrics (exporter self) r).1, fs2)
              | None => (self, fs2)
              end
          | Raise _ => (self, fs1)
          end
      | Raise _ => (self, fs1)
      end
  | _ => (self, fs1)                                 (* not results_file *)
  end.

End SCAPExporterDaemon.

(** ** Vocabulary of the properties *)

Module Spec.

(** A counter of [metrics], zero when absent. *)
Definition count (m : gmap string Z) (k : string) : Z := default 0 (m !! k).

(** [m] after [m[k] += 1]. *)
Definition bump (m : gmap string Z) (k : string) : gmap string Z :=
  <[k := count m k + 1]> m.

(** How often [k] occurs in a list of keys. *)
Definition occ (k : string) (ks : list string) : Z :=
  Z.of_nat (length (filter (λ k', k' = k) ks)).

(** [metrics] has exactly the twelve keys it starts with. *)
Definition well_keyed (m : gmap string Z) : Prop := dom m = dom initial_metrics.

(** The status of a rule-result as the loop reads it: the lower-cased text
    of its first result child. *)
Definition status_of `{PyLib} (rule_result : element) : option string :=
  e ← find rule_result (xccdf "result"); t ← text e; Some (str_lower t).

(** The rule definition the loop resolves for a rule-result. *)
Definition rule_def_of `{PyLib} (benchmark rule_result : element) : option element :=
  match find_rule benchmark (get rule_result "idref" "") with
  | Ok d => d
  | Raise _ => None
  end.

Definition severity_of `{PyLib} (benchmark rule_result : element) : string :=
  (resolve_rule (rule_def_of benchmark rule_result) (get rule_result "idref" "")).1.

Definition title_of `{PyLib} (benchmark rule_result : element) : string :=
  (resolve_rule (rule_def_of benchmark rule_result) (get rule_result "idref" "")).2.

(** The seven status keywords, and the four severities with a bucket. *)
Definition known_status (s : string) : Prop := is_Some (status_mapping !! s).
Definition listed_severity (s : string) : Prop :=
  s ∈ ["high"; "medium"; "low"; "info"].

(** The status bucket a rule-result adds to, if any. *)
Definition status_keys `{PyLib} (rule_result : element) : list string :=
  match status_of rule_result ≫= (status_mapping !!.) with
  | Some key => [key]
  | None => []
  end.

(** The severity bucket a rule-result adds to, if any. *)
Definition severity_keys `{PyLib} (benchmark rule_result : element) : list string :=
  if decide (status_of rule_result = Some "fail"
             ∧ listed_severity (severity_of benchmark rule_result))
  then [severity_key (severity_of benchmark rule_result)]
  else [].

(** All counters one rule-result adds to. *)
Definition bumped_keys `{PyLib} (benchmark rule_result : element) : list string :=
  "total_rules" :: status_keys rule_result ++ severity_keys benchmark rule_result.

(** The detail entry of a rule-result, none when it has no status. *)
Definition detail_of `{PyLib} (benchmark rule_result : element) : list rule_detail :=
  match status_of rule_result with
  | Some s => [RuleDetail (get rule_result "idref" "") (title_of benchmark rule_result)
                 s (severity_of benchmark rule_result)]
  | None => []
  end.

(** A rule-result that adds to no status bucket: it has no result element,
    or its status is none of the seven keywords. *)
Definition unbucketed `{PyLib} (rule_result : element) : Prop :=
  status_of rule_result ≫= (status_mapping !!.) = None.

(** A rule-result with status [fail], and one whose resolved severity is
    moreover [sev]. *)
Definition failing `{PyLib} (rule_result : element) : Prop :=
  status_of rule_result = Some "fail".

Definition failing_with `{PyLib} (benchmark : element) (sev : string)
    (rule_result : element) : Prop :=
  status_of rule_result = Some "fail" ∧ severity_of benchmark rule_result = sev.

#[export] Instance unbucketed_dec `{PyLib} rr : Decision (unbucketed rr).
Proof. unfold unbucketed. apply _. Defined.
#[export] Instance failing_dec `{PyLib} rr : Decision (failing rr).
Proof. unfold failing. apply _. Defined.
#[export] Instance failing_with_dec `{PyLib} b sev rr : Decision (failing_with b sev rr).
Proof. unfold failing_with. apply _. Defined.
#[export] Instance listed_severity_dec s : Decision (listed_severity s).
Proof. unfold listed_severity. apply _. Defined.

(** The number of elements of [l] that satisfy [P]. *)
Definition number_of {A} (P : A → Prop) `{∀ x, Decision (P x)} (l : list A) : Z :=
  Z.of_nat (length (filter P l)).

(** The seven status counters of a key list. *)
Definition status_occ (ks : list string) : Z :=
  occ "passed_rules" ks + occ "failed_rules" ks + occ "error_rules" ks
  + occ "unknown_rules" ks + occ "notapplicable_rules" ks
  + occ "notchecked_rules" ks + occ "informational_rules" ks.

(** Sums over a result. *)
Definition status_total (r : SCAPResult) : Z :=
  passed_rules r + failed_rules r + error_rules r + unknown_rules r
  + notapplicable_rules r + notchecked_rules r + informational_rules r.

Definition severity_total (r : SCAPResult) : Z :=
  severity_high_failed r + severity_medium_failed r
  + severity_low_failed r + severity_info_failed r.

(** The counters of a result are the occurrence counts of a key list. *)
Definition counted (ks : list string) (r : SCAPResult) : Prop :=
  total_rules r = occ "total_rules" ks
  ∧ passed_rules r = occ "passed_rules" ks
  ∧ failed_rules r = occ "failed_rules" ks
  ∧ error_rules r = occ "error_rules" ks
  ∧ unknown_rules r = occ "unknown_rules" ks
  ∧ notapplicable_rules r = occ "notapplicable_rules" ks
  ∧ notchecked_rules r = occ "notchecked_rules" ks
  ∧ informational_rules r = occ "informational_rules" ks
  ∧ severity_high_failed r = occ "severity_high_failed" ks
  ∧ severity_medium_failed r = occ "severity_medium_failed" ks
  ∧ severity_low_failed r = occ "severity_low_failed" ks
  ∧ severity_info_failed r = occ "severity_info_failed" ks.

(** The score as the code computes it, on the stored counters. *)
Definition score_of `{PyLib} (r : SCAPResult) : Q :=
  if decide (0 < total_rules r) then
    let applicable_rules :=
      total_rules r - notapplicable_rules r - notchecked_rules r in
    if decide (0 < applicable_rules)
    then fmul (fround (inject_Z (passed_rules r) / inject_Z applicable_rules)) 100
    else 0%Q
  else 0%Q.

(** The score as the specification words it: the float quotient times 100
    when the denominator is positive, zero otherwise. *)
Definition score_formula `{PyLib} (r : SCAPResult) : Q :=
  let denominator := total_rules r - notapplicable_rules r - notchecked_rules r in
  if decide (0 < denominator)
  then fmul (fround (inject_Z (passed_rules r) / inject_Z denominator)) 100
  else 0%Q.

(** The same result with another scan time. *)
Definition set_scan_time (t : Q) (r : SCAPResult) : SCAPResult :=
  mkSCAPResult (hostname r) (profile r) t (total_rules r) (passed_rules r)
    (failed_rules r) (error_rules r) (unknown_rules r) (notapplicable_rules r)
    (notchecked_rules r) (informational_rules r) (compliance_score r)
    (severity_high_failed r) (severity_medium_failed r) (severity_low_failed r)
    (severity_info_failed r) (benchmark_id r) (benchmark_version r)
    (rule_details r).

(** The start time a test result carries, when it has one that parses. *)
Definition start_time_parsed `{PyLib} (test_result : element) : option Q :=
  e ← find test_result (xccdf "start-time"); t ← text e;
  iso_timestamp (replace_char "Z" "+00:00" t).

(** The benchmark and rule-results a parse of a file works on. *)
Definition located (fs : filesystem) (xml_file : string)
    (benchmark : element) (rule_results : list element) : Prop :=
  ∃ root test_result,
    ET_parse fs xml_file = Ok root
    ∧ find_descendant root (xccdf "Benchmark") = Some benchmark
    ∧ locate_test_result root = Some test_result
    ∧ rule_results = findall test_result (xccdf "rule-result").

End Spec.
Import Spec.

(** ** A reference implementation of the interfaces

    Used by the concrete examples only. Each function agrees with the Python
    library on the inputs named in its comment. *)

Module Reference.

(** [str.lower] on ASCII text. *)
Definition lower_ascii (c : ascii) : ascii :=
  let n := N_of_ascii c in
  if ((65 <=? n) && (n <=? 90))%N then ascii_of_N (n + 32) else c.

Fixpoint lower (s : string) : string :=
  match s with
  | EmptyString => EmptyString
  | String c s' => String (lower_ascii c) (lower s')
  end.

Definition double_quote : ascii := ascii_of_nat 34.

Fixpoint has_char (c : ascii) (s : string) : bool :=
  match s with
  | EmptyString => false
  | String a s' => Ascii.eqb a c || has_char c s'
  end.

(** The rule lookup for an id without a double quote: the first [Rule]
    below the benchmark whose [id] attribute is the id. An id with a
    double quote ends the quoted literal of the predicate early; the ids
    of the examples have none, and the lookup reports the usual
    [SyntaxError] for the others. *)
Definition find_rule_by_id (benchmark : element) (rid : string)
  : outcome (option element) :=
  if has_char double_quote rid then Raise SyntaxError
  else Ok (head (filter (λ e, tag e = xccdf "Rule" ∧ attrib e !! "id" = Some rid)
                        (descendants benchmark))).

(** Decimal fields. *)
Definition digit (c : ascii) : option Z :=
  let n := Z.of_N (N_of_ascii c) in
  if (48 <=? n) && (n <=? 57) then Some (n - 48) else None.

Fixpoint number (acc : Z) (cs : list ascii) : option Z :=
  match cs with
  | [] => Some acc
  | c :: cs' => d ← digit c; number (10 * acc + d) cs'
  end.

Definition field (s : string) (start len : nat) : option Z :=
  number 0 (list_ascii_of_string (substring start len s)).

Definition leap (y : Z) : bool :=
  ((y mod 4 =? 0) && negb (y mod 100 =? 0)) || (y mod 400 =? 0).

Definition days_in_month (y m : Z) : Z :=
  if m =? 2 then (if leap y then 29 else 28)
  else if (m =? 4) || (m =? 6) || (m =? 9) || (m =? 11) then 30 else 31.

(** Days from 1970-01-01 to a date of the proleptic Gregorian calendar. *)
Definition days_from_civil (y m d : Z) : Z :=
  let y' := if m <=? 2 then y - 1 else y in
  let era := y' / 400 in
  let yoe := y' - era * 400 in
  let doy := (153 * (if 2 <? m then m - 3 else m + 9) + 2) / 5 + d - 1 in
  let doe := yoe * 365 + yoe / 4 - yoe / 100 + doy in
  era * 146097 + doe - 719468.

(** [datetime.fromisoformat(s).timestamp()] for a UTC stamp
    [YYYY-MM-DDTHH:MM:SS+00:00], which is what the replacement of [Z]
    makes of the usual start time. Other texts, among them ISO forms that
    Python accepts, are reported as unparseable. *)
Definition iso_utc_timestamp (s : string) : option Q :=
  if decide (String.length s = 25%nat ∧ substring 4 1 s = "-"
             ∧ substring 7 1 s = "-" ∧ substring 10 1 s = "T"
             ∧ substring 13 1 s = ":" ∧ substring 16 1 s = ":"
             ∧ substring 19 6 s = "+00:00") then
    y ← field s 0 4; mo ← field s 5 2; d ← field s 8 2;
    h ← field s 11 2; mi ← field s 14 2; sec ← field s 17 2;
    if (1 <=? y) && (1 <=? mo) && (mo <=? 12) && (1 <=? d)
       && (d <=? days_in_month y mo) && (h <? 24) && (mi <? 60) && (sec <? 60)
    then Some (inject_Z (86400 * days_from_civil y mo d + 3600 * h + 60 * mi + sec))
    else None
  else None.

(** The library of the examples. Its float operations are exact, which
    suffices for the quotients the examples meet. *)
#[export] Instance lib : PyLib := {|
  str_lower := lower;
  find_rule := find_rule_by_id;
  iso_timestamp := iso_utc_timestamp;
  fround q := q;
  fround_le x y Hxy := Hxy;
  fround_0 := Qeq_refl 0;
  fround_1 := Qeq_refl 1;
  fround_100 := Qeq_refl 100;
|}.

(** The element following [flag] on a command line. *)
Fixpoint option_value (flag : string) (cmd : list string) : option string :=
  match cmd with
  | a :: ((b :: _) as rest) => if decide (a = flag) then Some b else option_value flag rest
  | _ => None
  end.

(** A scripted host: [mkstemp] hands out one path, the content directory
    holds [content_files], and the scanner writes [report] to the
    [--results] file and exits with [returncode]. *)
Definition temp_path : string := "/tmp/scap_results_k3v9x2.xml".

Definition scripted (content_files : list string) (returncode : Z)
    (stderr : string) (report : outcome element) : OS := {|
  mkstemp fs :=
    match fs !! temp_path with
    | None => Ok (temp_path, <[temp_path := Raise ParseError]> fs)
    | Some _ => Raise OSError
    end;
  glob _ _ _ := content_files;
  subprocess_run cmd fs :=
    (Completed returncode stderr,
     match option_value "--results" cmd with
     | Some path => <[path := report]> fs
     | None => fs
     end);
  nodename := "scanhost";
|}.

(** Two decimal digits, and four. *)
Definition digit_char (n : Z) : ascii := ascii_of_N (Z.to_N (48 + n mod 10)).
Definition pad2 (n : Z) : string :=
  String (digit_char (n / 10)) (String (digit_char n) EmptyString).
Definition pad4 (n : Z) : string := pad2 (n / 100) +:+ pad2 (n mod 100).

(** The date of a day count, the inverse of [days_from_civil]. *)
Definition civil_from_days (days : Z) : Z * Z * Z :=
  let z := days + 719468 in
  let era := z / 146097 in
  let doe := z - era * 146097 in
  let yoe := (doe - doe / 1460 + doe / 36524 - doe / 146096) / 365 in
  let doy := doe - (365 * yoe + yoe / 4 - yoe / 100) in
  let mp := (5 * doy + 2) / 153 in
  let d := doy - (153 * mp + 2) / 5 + 1 in
  let m := if mp <? 10 then mp + 3 else mp - 9 in
  (yoe + era * 400 + (if m <=? 2 then 1 else 0), m, d).

Definition pad6 (n : Z) : string := pad2 (n / 10000) +:+ pad4 (n mod 10000).

(** The nearest integer, the even one of two that are equally near. *)
Definition round_half_even (x : Q) : Z :=
  let d := Z.pos (Qden x) in
  let f := Qnum x / d in
  match 2 * (Qnum x mod d) ?= d with
  | Lt => f
  | Gt => f + 1
  | Eq => if Z.even f then f else f + 1
  end.

(** [datetime.fromtimestamp(t).isoformat()] of CPython 3.11 on a Linux host
    with a 64-bit [time_t] whose local time is UTC. The timestamp is
    rounded to microseconds, ties to even, and the microseconds are printed
    when they are not zero. A second count outside [time_t] raises
    [OverflowError]; a year outside the C [int] makes [localtime] fail with
    [OSError]; a year outside 1 to 9999 raises [ValueError], and so does the
    first day of year 1, as the fold probe looks one day back. The product
    with 10^6 is taken exactly, as the floats of [lib] are. *)
Definition isoformat_utc (t : Q) : outcome string :=
  let total := round_half_even (t * 1000000) in
  let secs := total / 1000000 in
  let us := total mod 1000000 in
  if decide (secs < -9223372036854775808 ∨ 9223372036854775808 ≤ secs) then
    Raise OverflowError
  else if decide (secs < -67768040609740800 ∨ 67768036191676799 < secs) then
    Raise OSError
  else if decide (secs < -62135510400 ∨ 253402300799 < secs) then
    Raise ValueError
  else
    let '(y, m, d) := civil_from_days (secs / 86400) in
    let r := secs mod 86400 in
    Ok (pad4 y +:+ "-" +:+ pad2 m +:+ "-" +:+ pad2 d +:+ "T" +:+
        pad2 (r / 3600) +:+ ":" +:+ pad2 (r mod 3600 / 60) +:+ ":" +:+ pad2 (r mod 60)
        +:+ (if us =? 0 then "" else "." +:+ pad6 us)).

(** The metric families of the registry, as the exposition names them;
    this client does not render the samples. *)
Definition families : string :=
  "scap_compliance_score_percent scap_total_rules scap_rules_by_status " +:+
  "scap_failed_rules_by_severity scap_last_scan_timestamp_seconds scap_scan_info".

#[export] Instance client : PromClient Registry := {|
  generate_latest _ := Ok families;
  fromtimestamp_isoformat := isoformat_utc;
|}.

End Reference.

(** ** Sample documents *)

Module Samples.

(** An XCCDF element. The white-space text of container elements is never
    read by the parser and is left out. *)
Definition node (name : string) (attrs : list (string * string))
    (text : option string) (children : list element) : element :=
  Element (xccdf name) (list_to_map attrs) text children.

Definition rule (id severity title : string) : element :=
  node "Rule" [("id", id); ("severity", severity)] None
    [node "title" [] (Some title) []].

Definition rule_result (idref status : string) : element :=
  node "rule-result" [("idref", idref)] None [node "result" [] (Some status) []].

Definition benchmark_ref (rules : list element) : element :=
  node "benchmark" [("href", "/usr/share/xml/scap/ssg/content/ssg-test-ds.xml")] None
    [node "Benchmark"
       [("id", "xccdf_org.ssgproject.content_benchmark_DEBIAN"); ("version", "1.0")]
       None rules].

(** The document of [create_sample_scap_results] in [test_exporter.py]. *)
Definition sample_scap_results : element :=
  node "TestResult" [("id", "xccdf_org.open-scap_testresult_standard")] None
    [ benchmark_ref
        [ rule "xccdf_org.ssgproject.content_rule_accounts_password_minlen_login_defs"
               "medium" "Set Password Minimum Length";
          rule "xccdf_org.ssgproject.content_rule_accounts_max_concurrent_login_sessions"
               "high" "Limit Concurrent Login Sessions";
          rule "xccdf_org.ssgproject.content_rule_service_ssh_disabled"
               "low" "Disable SSH Service";
          rule "xccdf_org.ssgproject.content_rule_bootloader_password"
               "medium" "Set Boot Loader Password";
          rule "xccdf_org.ssgproject.content_rule_package_sudo_installed"
               "info" "Install sudo Package" ];
      node "profile" [("idref", "xccdf_org.ssgproject.content_profile_cis")] None [];
      node "target" [] (Some "test-server") [];
      node "start-time" [] (Some "2024-01-01T12:00:00Z") [];
      rule_result "xccdf_org.ssgproject.content_rule_accounts_password_minlen_login_defs" "pass";
      rule_result "xccdf_org.ssgproject.content_rule_accounts_max_concurrent_login_sessions" "fail";
      rule_result "xccdf_org.ssgproject.content_rule_service_ssh_disabled" "fail";
      rule_result "xccdf_org.ssgproject.content_rule_bootloader_password" "notapplicable";
      rule_result "xccdf_org.ssgproject.content_rule_package_sudo_installed" "error" ].

(** A test result over a one-rule benchmark, with the given rule-results
    and no start time. *)
Definition small_result (rule_results : list element) : element :=
  node "TestResult" [] None
    (benchmark_ref [rule "r1" "high" "Rule one"]
     :: node "profile" [("idref", "cis")] None []
     :: node "target" [] (Some "host1") []
     :: rule_results).

(** One rule-result with a status XCCDF defines and the table lacks. *)
Definition doc_notselected : element := small_result [rule_result "r1" "notselected"].

(** One rule-result with an empty result element between two good ones. *)
Definition doc_empty_result : element :=
  small_result [ rule_result "r1" "pass";
                 node "rule-result" [("idref", "r1")] None [node "result" [] None []];
                 rule_result "r1" "fail" ].

(** One rule-result without a result element. *)
Definition doc_no_result : element :=
  small_result [node "rule-result" [("idref", "r1")] None []].

(** A test result with rule-results and no benchmark anywhere. *)
Definition doc_no_benchmark : element :=
  node "TestResult" [] None
    [ node "target" [] (Some "host1") [];
      rule_result "r1" "pass" ].

(** A test result over the same benchmark without any rule-result. *)
Definition doc_no_rule_results : element := small_result [].

(** A file system holding one document. *)
Definition one_file (path : string) (doc : element) : filesystem := {[ path := Ok doc ]}.

(** A stored record for a host and a profile, with the counters of the
    sample document. *)
Definition record_for (hostname profile : string) : SCAPResult :=
  mkSCAPResult (Some hostname) profile 1704110400 5 1 2 1 0 1 0 0 25
    1 0 1 0 "xccdf_org.ssgproject.content_benchmark_DEBIAN" "1.0" [].

(** A host whose content directory has one data stream and whose scanner
    writes the sample document and exits with the given code. *)
Definition host (returncode : Z) : OS :=
  Reference.scripted ["/usr/share/xml/scap/ssg/content/ssg-debian12-ds.xml"]
    returncode "" (Ok sample_scap_results).

(** The scanner and the daemon with their default configuration. *)
Definition scanner : SCAPScanner.t := SCAPScanner.init ∅.
Definition daemon : SCAPExporterDaemon.t :=
  SCAPExporterDaemon.Daemon None scanner PrometheusExporter.init.

(** A client whose encoder fails, as [generate_latest] does on a label
    value that cannot be encoded as UTF-8. *)
Definition client_encoder_raises : PromClient Registry := {|
  generate_latest _ := Raise ValueError;
  fromtimestamp_isoformat := Reference.isoformat_utc;
|}.

End Samples.

(** ** Further vocabulary *)

Module SpecMore.

(** A rule-result the loop gets through: it has no result element, or its
    result element has text and the lookup of its rule returns. *)
Definition processable `{PyLib} (benchmark rule_result : element) : Prop :=
  match find rule_result (xccdf "result") with
  | None => True
  | Some e =>
      is_Some (text e)
      ∧ match find_rule benchmark (get rule_result "idref" "") with
        | Ok _ => True
        | Raise _ => False
        end
  end.

(** A rule-result with a status to report. *)
Definition has_status `{PyLib} (rule_result : element) : Prop :=
  is_Some (status_of rule_result).

#[export] Instance has_status_dec `{PyLib} rr : Decision (has_status rr).
Proof. unfold has_status. apply _. Defined.

(** [update_metrics] for each record of a list, in order, going on after an
    update that raised (as the daemon does). *)
Definition update_all `{PromClient Registry} (e : PrometheusExporter.t)
    (rs : list SCAPResult) : PrometheusExporter.t :=
  foldl (λ e r, (update_metrics e r).1) e rs.

(** The label values of a record's series. *)
Definition labels_of (r : SCAPResult) : list string :=
  [str (hostname r); profile r; benchmark_id r].

End SpecMore.
Import SpecMore.

(** ** Configuration, the daemon loop and the entry points *)

Module Config.

(** One entry of the [scans] list: the keys the loop reads. An interval
    is a whole number of seconds. *)
Record scan_entry : Type := ScanEntry {
  profile : option string;
  content_file : option string;
  interval : option Z;
}.

(** The configuration mapping: the keys the program reads, each absent or
    present. Values of other types than these are outside the model. *)
Record t : Type := Make {
  hostname : option string;
  http_port : option Z;
  scanner : option (gmap string string);
  scans : option (list scan_entry);
}.

(** [{}] *)
Definition empty : t := Make None None None None.

End Config.

(** What [yaml.safe_load] returned: a mapping, or a value of another kind
    ([None] for an empty document, a list, a scalar). *)
Inductive yaml_value : Type :=
| YamlMapping (c : Config.t)
| YamlOther.

(** [open(config_file)] followed by [yaml.safe_load], raising when the file
    cannot be read or is not YAML. *)
Class Yaml : Type := {
  load_file : string → outcome yaml_value;
}.

(** [time.sleep(seconds)] for an integer number of seconds, on its [n]-th
    call: it returns or raises. The conversion to nanoseconds comes first
    and raises [OverflowError] outside 64 bits; a negative length then
    raises [ValueError]. Whether a long sleep returns is the host's affair. *)
Class Time : Type := {
  time_sleep : nat → Z → outcome unit;
  time_sleep_overflow (n : nat) (s : Z) :
    s * 1000000000 < -9223372036854775808 ∨ 9223372036854775807 < s * 1000000000 →
    time_sleep n s = Raise OverflowError;
  time_sleep_negative (n : nat) (s : Z) :
    -9223372036854775808 ≤ s * 1000000000 → s < 0 →
    time_sleep n s = Raise ValueError;
}.

Module Daemon.

(** The daemon object: its configuration, and the hostname, scanner and
    exporter that [scan_and_update] works with. *)
Record t : Type := Make {
  config : Config.t;
  core : SCAPExporterDaemon.t;
}.

(** [_load_config]: the loaded value, or [{}] after any exception. *)
Definition _load_config `{Yaml} (config_file : string) : yaml_value :=
  match load_file config_file with
  | Ok v => v
  | Raise _ => YamlMapping Config.empty
  end.

(** [__init__]. A loaded value that is no mapping has no [get]. The exporter
    is the first one of the process on the default registry. *)
Definition init `{Yaml} (config_file : string) : outcome t :=
  match _load_config config_file with
  | YamlMapping c =>
      Ok (Make c (SCAPExporterDaemon.Daemon (Config.hostname c)
                    (SCAPScanner.init (default ∅ (Config.scanner c)))
                    PrometheusExporter.init))
  | YamlOther => Raise AttributeError
  end.

(** The state of the scan loop: the daemon, the file system, the sleeps
    taken so far and the number of [scan_and_update] calls made. *)
Record loop : Type := Loop {
  daemon : SCAPExporterDaemon.t;
  files : filesystem;
  sleeps : list Z;
  scans_done : nat;
}.

(** [time.sleep(seconds)]; the sleeps that returned so far number its
    call. *)
Definition sleep `{Time} (seconds : Z) (st : loop) : outcome loop :=
  _ ← time_sleep (length (sleeps st)) seconds;
  Ok (Loop (daemon st) (files st) (sleeps st ++ [seconds]) (scans_done st)).

(** The body of [for scan_config in scans] in [run], while [self.running]
    stays true. [clock n] is the clock reading during the [n]-th call of
    [scan_and_update]. *)
Definition scan_entry_step `{PyLib} `{OS} `{PromClient Registry} `{Time}
    (clock : nat → Q) (st : loop) (scan_config : Config.scan_entry) : outcome loop :=
  let profile := Config.profile scan_config in
  let content_file := Config.content_file scan_config in
  let interval := default 3600 (Config.interval scan_config) in
  if truthy profile then
    let '(d, fs) :=
      SCAPExporterDaemon.scan_and_update (clock (scans_done st)) (daemon st)
        (or_else profile "") content_file (files st) in
    sleep interval (Loop d fs (sleeps st) (S (scans_done st)))
  else Ok st.                                              (* continue *)

(** [passes] rounds of [while self.running: for scan_config in scans]. *)
Fixpoint scan_loop `{PyLib} `{OS} `{PromClient Registry} `{Time} (clock : nat → Q)
    (passes : nat) (scans : list Config.scan_entry) (st : loop) : outcome loop :=
  match passes with
  | O => Ok st
  | S n => st' ← for_each (scan_entry_step clock) st scans;
           scan_loop clock n scans st'
  end.

(** [run], up to [passes] rounds of its [while] loop: without scans it
    returns at once. The HTTP server thread it starts is not part of this
    function's model. *)
Definition run `{PyLib} `{OS} `{PromClient Registry} `{Time} (clock : nat → Q)
    (passes : nat) (self : t) (fs : filesystem) : outcome loop :=
  let scans := default [] (Config.scans (config self)) in
  let st := Loop (core self) fs [] 0 in
  match scans with
  | [] => Ok st
  | _ :: _ => scan_loop clock passes scans st
  end.

End Daemon.

Module Main.

(** The parsed command line of [scap_prometheus_exporter.py]. *)
Record args : Type := Args {
  config : string;
  scan_once : bool;
  profile : option string;
  content_file : option string;
  results_file : option string;
}.

(** What [main] printed and the file system it left. *)
Record result : Type := Result {
  stdout : list string;
  files : filesystem;
}.

(** How [main] ends: it returns, or an exception it does not catch ends the
    program. [IndexError] is not among the exceptions of the library calls. *)
Inductive ending : Type :=
| Returns (r : result)
| Uncaught (e : exn)
| UncaughtIndexError.

(** Going on after a call that may raise. *)
Definition after {A} (o : outcome A) (k : A → ending) : ending :=
  match o with Ok a => k a | Raise e => Uncaught e end.

(** [main]. [clock] and [passes] are as for [Daemon.run]. *)
Definition main `{PyLib} `{OS} `{PromClient Registry} `{Yaml} `{Time}
    (clock : nat → Q) (passes : nat) (a : args) (fs : filesystem) : ending :=
  if truthy (results_file a) then
    after (parse_results (clock 0%nat) fs (or_else (results_file a) "") None)
      (λ parsed,
         match parsed with
         | Some r =>
             let '(exporter, updated) := update_metrics PrometheusExporter.init r in
             after updated (λ _,
               after (generate_latest (registry exporter)) (λ text,
                 Returns (Result [text] fs)))
         | None => Returns (Result [] fs)
         end)
  else
    after (Daemon.init (config a)) (λ daemon,
      if scan_once a then
        (* args.profile or daemon.config.get('scans', [{}])[0].get('profile') *)
        let chosen :=
          if truthy (profile a) then Some (profile a)
          else match default [Config.ScanEntry None None None]
                       (Config.scans (Daemon.config daemon)) with
               | entry :: _ => Some (Config.profile entry)
               | [] => None                                (* IndexError *)
               end in
        match chosen with
        | None => UncaughtIndexError
        | Some profile =>
            if truthy profile then
              let '(d, fs') :=
                SCAPExporterDaemon.scan_and_update (clock 0%nat) (Daemon.core daemon)
                  (or_else profile "") (content_file a) fs in
              after (generate_latest (registry (SCAPExporterDaemon.exporter d)))
                (λ text, Returns (Result [text] fs'))
            else Returns (Result [] fs)
        end
      else
        after (Daemon.run clock passes daemon fs)
          (λ st, Returns (Result [] (Daemon.files st)))).

End Main.

Module MetricsServer.

(** Where [main] of [metrics_server.py] stands when it stops setting up:
    the module-level [exporter], and whether it went on to serve. *)
Record state : Type := State {
  exporter : option PrometheusExporter.t;
  serving : bool;
}.

(** [main]: the exporter is assigned first, the sample file is parsed, and
    the server is started only after an update. An exception of
    [update_metrics] ends the program. *)
Definition main `{PyLib} `{PromClient Registry} (now : Q) (fs : filesystem)
    : outcome state :=
  let e := PrometheusExporter.init in
  parsed ← parse_results now fs "sample_scap_results.xml" None;
  match parsed with
  | Some r =>
      let '(e', updated) := update_metrics e r in
      _ ← updated;
      Ok (State (Some e') true)
  | None => Ok (State (Some e) false)
  end.

End MetricsServer.

Module SpecLoop.

(** An entry the loop scans: its profile is present and not empty. *)
Definition profiled (sc : Config.scan_entry) : Prop :=
  truthy (Config.profile sc) = true.

#[export] Instance profiled_dec sc : Decision (profiled sc).
Proof. unfold profiled. apply _. Defined.

(** The sleeps of one round: the interval of each scanned entry, 3600 when
    it has none. *)
Definition schedule (scans : list Config.scan_entry) : list Z :=
  (λ sc, default 3600 (Config.interval sc)) <$> filter profiled scans.

(** What the cycles of the listed entries make of a daemon and a file
    system: one [scan_and_update] for each entry, in order, with the
    entry's profile and content file; [n] cycles were made before. *)
Fixpoint cycles `{PyLib} `{OS} `{PromClient Registry} (clock : nat → Q) (n : nat)
    (entries : list Config.scan_entry) (d : SCAPExporterDaemon.t) (fs : filesystem)
  : SCAPExporterDaemon.t * filesystem :=
  match entries with
  | [] => (d, fs)
  | sc :: rest =>
      let '(d', fs') :=
        SCAPExporterDaemon.scan_and_update (clock n) d
          (or_else (Config.profile sc) "") (Config.content_file sc) fs in
      cycles clock (S n) rest d' fs'
  end.

End SpecLoop.
Import SpecLoop.

(** ** Further sample data *)

Module ReferenceTime.

(** [time.sleep] of CPython 3.11 on Linux, where the monotonic clock reads
    [monotonic_ns n] nanoseconds at the [n]-th call: the kernel refuses a
    deadline of 2^63 - 1 nanoseconds or more. *)
Definition sleep_until (monotonic_ns : nat → Z) (n : nat) (s : Z) : outcome unit :=
  if decide (s * 1000000000 < -9223372036854775808
             ∨ 9223372036854775807 < s * 1000000000) then Raise OverflowError
  else if decide (s < 0) then Raise ValueError
  else if decide (9223372036854775807 ≤ monotonic_ns n + s * 1000000000) then
    Raise OSError
  else Ok ().

Definition linux_time (monotonic_ns : nat → Z) : Time.
Proof.
  refine {| time_sleep := sleep_until monotonic_ns |}.
  - intros n s Hs. unfold sleep_until. by rewrite decide_True.
  - intros n s Hlo Hneg. unfold sleep_until.
    rewrite decide_False by lia. by rewrite decide_True.
Defined.

End ReferenceTime.

Module SamplesMore.
Import Samples.

(** A host that is up for an hour at the first sleep, and for a minute and
    a second more at each further one. *)
#[export] Instance timer : Time :=
  ReferenceTime.linux_time (λ n, 3600000000000 + 61000000000 * Z.of_nat n).

(** A results document whose root is the benchmark, with the test result
    below it. *)
Definition doc_benchmark_root : element :=
  node "Benchmark" [("id", "xccdf_org.ssgproject.content_benchmark_DEBIAN")] None
    [ rule "r1" "high" "Rule one";
      node "TestResult" [] None
        [ node "target" [] (Some "host1") []; rule_result "r1" "pass" ] ].

(** A passed and a failed rule-result of the one-rule benchmark. *)
Definition two_rule_results : list element :=
  [rule_result "r1" "pass"; rule_result "r1" "fail"].

(** The benchmark of [small_result], and a rule-result for a rule it does
    not have. *)
Definition small_benchmark : element :=
  node "Benchmark"
    [("id", "xccdf_org.ssgproject.content_benchmark_DEBIAN"); ("version", "1.0")]
    None [rule "r1" "high" "Rule one"].

Definition doc_unmatched_rule : element := small_result [rule_result "r9" "fail"].

(** What [parse_results] returns for [sample_scap_results]. *)
Definition sample_record : SCAPResult :=
  mkSCAPResult (Some "test-server") "xccdf_org.ssgproject.content_profile_cis"
    1704110400 5 1 2 1 0 1 0 0 (100 # 4) 1 0 1 0
    "xccdf_org.ssgproject.content_benchmark_DEBIAN" "1.0"
    [ RuleDetail "xccdf_org.ssgproject.content_rule_accounts_password_minlen_login_defs"
        "Set Password Minimum Length" "pass" "medium";
      RuleDetail "xccdf_org.ssgproject.content_rule_accounts_max_concurrent_login_sessions"
        "Limit Concurrent Login Sessions" "fail" "high";
      RuleDetail "xccdf_org.ssgproject.content_rule_service_ssh_disabled"
        "Disable SSH Service" "fail" "low";
      RuleDetail "xccdf_org.ssgproject.content_rule_bootloader_password"
        "Set Boot Loader Password" "notapplicable" "medium";
      RuleDetail "xccdf_org.ssgproject.content_rule_package_sudo_installed"
        "Install sudo Package" "error" "info" ].


(** A host with an empty content directory. *)
Definition host_without_content : OS :=
  Reference.scripted [] 0 "" (Raise ParseError).

(** A configuration file that loads to the given value. *)
Definition yaml_file (v : outcome yaml_value) : Yaml := {| load_file _ := v |}.

(** A scan list: one entry every minute, and one entry without profile. *)
Definition scans_every_minute : list Config.scan_entry :=
  [Config.ScanEntry (Some "cis") None (Some 60); Config.ScanEntry None None None].



(** The command line [--scan-once], with or without [--profile cis]. *)
Definition args_scan_once (profile : option string) : Main.args :=
  Main.Args "scap_exporter.yaml" true profile None None.

(** The command line [--results-file results.xml]. *)
Definition args_results_file : Main.args :=
  Main.Args "scap_exporter.yaml" false None None (Some "results.xml").

(** A clock that stands still. *)
Definition clock0 : nat → Q := λ _, 0%Q.

End SamplesMore.

(** * Properties *)

(** ** Strings and keys *)

Lemma append_length (s t : string) :
  String.length (s +:+ t) = (String.length s + String.length t)%nat.
Proof. induction s as [|c s IH]; simpl; [done | by rewrite IH]. Qed.

Lemma append_inj_r (t s1 s2 : string) : s1 +:+ t = s2 +:+ t → s1 = s2.
Proof.
  revert s2. induction s1 as [|c s1 IH]; intros [|c2 s2] E; simpl in E.
  - done.
  - apply (f_equal String.length) in E. rewrite !append_length in E. simpl in E. lia.
  - apply (f_equal String.length) in E. rewrite !append_length in E. simpl in E. lia.
  - injection E as -> E. by rewrite (IH _ E).
Qed.

Lemma keys_cases (k : string) :
  k ∈ dom initial_metrics →
  k ∈ ["total_rules"; "passed_rules"; "failed_rules"; "error_rules";
       "unknown_rules"; "notapplicable_rules"; "notchecked_rules";
       "informational_rules"; "severity_high_failed"; "severity_medium_failed";
       "severity_low_failed"; "severity_info_failed"].
Proof.
  unfold initial_metrics. rewrite !dom_insert_L, dom_singleton_L.
  rewrite !elem_of_union, !elem_of_singleton, !elem_of_cons. tauto.
Qed.

Lemma severity_key_listed (s : string) :
  severity_key s ∈ dom initial_metrics ↔ listed_severity s.
Proof.
  unfold listed_severity. split.
  - intros Hk%keys_cases. unfold severity_key in Hk. simpl in Hk.
    rewrite !elem_of_cons in Hk. rewrite !elem_of_cons.
    destruct Hk as [E|[E|[E|[E|[E|[E|[E|[E|[E|[E|[E|[E|E]]]]]]]]]]]];
      try discriminate E; try (by apply elem_of_nil in E).
    all: injection E as E; simpl in E.
    all: first [ apply (append_inj_r "_failed" s "high") in E
               | apply (append_inj_r "_failed" s "medium") in E
               | apply (append_inj_r "_failed" s "low") in E
               | apply (append_inj_r "_failed" s "info") in E ]; auto.
  - rewrite !elem_of_cons, elem_of_nil. intros Hs. apply elem_of_dom.
    destruct Hs as [->|[->|[->|[->|[]]]]]; by eexists.
Qed.

Lemma status_mapping_cases (s key : string) :
  status_mapping !! s = Some key →
  (s, key) ∈ [("pass", "passed_rules"); ("fail", "failed_rules");
              ("error", "error_rules"); ("unknown", "unknown_rules");
              ("notapplicable", "notapplicable_rules");
              ("notchecked", "notchecked_rules");
              ("informational", "informational_rules")].
Proof.
  unfold status_mapping. intros Hs. rewrite !elem_of_cons.
  repeat (rewrite lookup_insert in Hs; case_decide as E;
          [injection Hs as <-; subst s; tauto | clear E]).
  rewrite lookup_singleton in Hs. case_decide; [|done].
  injection Hs as <-; subst s; tauto.
Qed.

Lemma status_mapping_key (s key : string) :
  status_mapping !! s = Some key → key ∈ dom initial_metrics.
Proof.
  intros Hs%status_mapping_cases. rewrite !elem_of_cons, elem_of_nil in Hs.
  apply elem_of_dom.
  destruct Hs as [E|[E|[E|[E|[E|[E|[E|[]]]]]]]]; injection E as -> ->; by eexists.
Qed.

(** ** Counters *)

Lemma count_bump (m : gmap string Z) (k1 k : string) :
  count (bump m k1) k = count m k + (if decide (k1 = k) then 1 else 0).
Proof.
  unfold bump, count at 1. rewrite lookup_insert.
  case_decide; [subst; simpl; lia | fold (count m k); lia].
Qed.

Lemma occ_nil (k : string) : occ k [] = 0.
Proof. done. Qed.

Lemma occ_cons (k k1 : string) (ks : list string) :
  occ k (k1 :: ks) = (if decide (k1 = k) then 1 else 0) + occ k ks.
Proof.
  unfold occ. rewrite filter_cons. case_decide; simpl; lia.
Qed.

Lemma occ_app (k : string) (ks1 ks2 : list string) :
  occ k (ks1 ++ ks2) = occ k ks1 + occ k ks2.
Proof. unfold occ. rewrite filter_app, length_app. lia. Qed.

Lemma occ_nonneg (k : string) (ks : list string) : 0 ≤ occ k ks.
Proof. unfold occ. lia. Qed.

Lemma count_foldl_bump (ks : list string) (m : gmap string Z) (k : string) :
  count (foldl bump m ks) k = count m k + occ k ks.
Proof.
  revert m. induction ks as [|k1 ks IH]; intros m; simpl.
  - rewrite occ_nil. lia.
  - rewrite IH, count_bump, occ_cons. lia.
Qed.

Lemma iadd1_Ok (m m' : gmap string Z) (k : string) :
  iadd1 m k = Ok m' ↔ k ∈ dom m ∧ m' = bump m k.
Proof.
  unfold iadd1, getitem, bump, count. rewrite elem_of_dom.
  destruct (m !! k) as [v|]; simpl; split.
  - intros [= <-]. eauto.
  - by intros [_ ->].
  - done.
  - by intros [[] _].
Qed.

Lemma well_keyed_bump (m : gmap string Z) (k : string) :
  well_keyed m → k ∈ dom initial_metrics → well_keyed (bump m k).
Proof.
  unfold well_keyed, bump. intros Hm Hk. rewrite dom_insert_L, Hm.
  apply leibniz_equiv. apply subseteq_union_1. by apply singleton_subseteq_l.
Qed.

Lemma well_keyed_foldl_bump (ks : list string) (m : gmap string Z) :
  well_keyed m → Forall (λ k, k ∈ dom initial_metrics) ks →
  well_keyed (foldl bump m ks).
Proof.
  revert m. induction ks as [|k ks IH]; intros m Hm Hks; simpl; [done|].
  inversion_clear Hks. apply IH; [by apply well_keyed_bump | done].
Qed.

Lemma well_keyed_severity (m : gmap string Z) (sev : string) :
  well_keyed m → is_Some (m !! severity_key sev) ↔ listed_severity sev.
Proof.
  intros Hm. rewrite <- elem_of_dom, Hm. apply severity_key_listed.
Qed.

Section Parser.
Context `{PyLib}.

Lemma process_rule_result_Ok (b : element) (st st' : loop_state) (rr : element) :
  well_keyed (metrics st) →
  process_rule_result b st rr = Ok st' →
  metrics st' = foldl bump (metrics st) (bumped_keys b rr)
  ∧ details st' = details st ++ detail_of b rr
  ∧ well_keyed (metrics st').
Proof.
  intros Hm. unfold process_rule_result.
  destruct (iadd1 (metrics st) "total_rules") as [m1|] eqn:E1; simpl; [|done].
  apply iadd1_Ok in E1 as [H1 ->]. rewrite Hm in H1.
  assert (Hm1 := well_keyed_bump _ _ Hm H1).
  unfold status_keys, severity_keys, detail_of, status_of, severity_of,
    title_of, rule_def_of.
  destruct (find rr (xccdf "result")) as [e|]; simpl.
  2: { intros [= <-]; simpl. by rewrite app_nil_r. }
  destruct (text e) as [t|]; simpl; [|done].
  set (s := str_lower t).
  assert (∃ m2, match status_mapping !! s with
                | Some key => iadd1 (bump (metrics st) "total_rules") key
                | None => Ok (bump (metrics st) "total_rules")
                end = Ok m2
                ∧ m2 = foldl bump (bump (metrics st) "total_rules")
                         match status_mapping !! s with
                         | Some key => [key] | None => [] end
                ∧ well_keyed m2) as (m2 & -> & Em2 & Hm2).
  { destruct (status_mapping !! s) as [key|] eqn:Es; [|by eexists].
    apply status_mapping_key in Es. eexists. split; [|split; [done|]].
    - apply iadd1_Ok. split; [|done]. by rewrite Hm1.
    - by apply well_keyed_bump. }
  simpl. destruct (find_rule b (get rr "idref" "")) as [d|]; simpl; [|done].
  destruct (resolve_rule d (get rr "idref" "")) as [sev ttl]; simpl.
  rewrite foldl_app, <- Em2.
  destruct (decide (s = "fail")) as [Es|Es].
  - destruct (decide (is_Some (m2 !! severity_key sev))) as [Hs|Hs].
    + assert (Hl : listed_severity sev) by by apply (well_keyed_severity m2).
      rewrite decide_True by (by rewrite Es).
      destruct (iadd1 m2 (severity_key sev)) as [m3|] eqn:E3; simpl.
      * apply iadd1_Ok in E3 as [H3 ->]. intros [= <-]; simpl.
        split_and!; [done..|]. apply well_keyed_bump; [done|].
        by apply severity_key_listed.
      * exfalso. assert (iadd1 m2 (severity_key sev) = Ok (bump m2 (severity_key sev))) as E.
        { apply iadd1_Ok. split; [|done]. by apply elem_of_dom. }
        congruence.
    + rewrite decide_False.
      2: { intros [_ Hl]. by apply Hs, (well_keyed_severity m2). }
      intros [= <-]; simpl. done.
  - rewrite decide_False by (intros [[= ?] _]; done).
    intros [= <-]; simpl. done.
Qed.

Lemma bumped_keys_dom (b rr : element) :
  Forall (λ k, k ∈ dom initial_metrics) (bumped_keys b rr).
Proof.
  unfold bumped_keys, status_keys, severity_keys.
  apply Forall_cons. split; [by apply elem_of_dom; eexists|].
  apply Forall_app. split.
  - destruct (status_of rr ≫= _) as [key|] eqn:E; [|done].
    apply Forall_singleton. apply bind_Some in E as (s & _ & Es).
    by apply status_mapping_key in Es.
  - case_decide as E; [|done]. apply Forall_singleton.
    apply severity_key_listed, E.
Qed.

(** The loop: every counter is bumped once for each of its occurrences in
    the rule-results' key lists, and the details are appended in order. *)
Lemma for_each_Ok (b : element) (l : list element) (st st' : loop_state) :
  well_keyed (metrics st) →
  for_each (process_rule_result b) st l = Ok st' →
  metrics st' = foldl bump (metrics st) (l ≫= bumped_keys b)
  ∧ details st' = details st ++ (l ≫= detail_of b)
  ∧ well_keyed (metrics st').
Proof.
  revert st. induction l as [|rr l IH]; intros st Hm; simpl.
  - intros [= <-]. by rewrite app_nil_r.
  - destruct (process_rule_result b st rr) as [st1|] eqn:E1; simpl; [|done].
    apply process_rule_result_Ok in E1 as (Em & Ed & Hm1); [|done].
    intros (Em' & Ed' & Hm')%IH; [|done].
    split_and!; [rewrite Em', Em, <- foldl_app; reflexivity | rewrite Ed', Ed, <- app_assoc; reflexivity | done].
Qed.


Lemma build_result_Ok (th : option string) (p : string) (t c : Q) (bid bv : string)
    (ds : list rule_detail) (m : gmap string Z) (r : SCAPResult) :
  build_result th p t c bid bv ds m = Ok r →
  r = mkSCAPResult th p t (count m "total_rules") (count m "passed_rules")
        (count m "failed_rules") (count m "error_rules") (count m "unknown_rules")
        (count m "notapplicable_rules") (count m "notchecked_rules")
        (count m "informational_rules") c
        (count m "severity_high_failed") (count m "severity_medium_failed")
        (count m "severity_low_failed") (count m "severity_info_failed")
        bid bv ds.
Proof.
  unfold build_result, count.
  repeat (case_match; [|done]). simplify_eq. case_decide; [|done].
  by intros [= <-].
Qed.

Lemma score_Ok (m : gmap string Z) (q : Q) :
  score m = Ok q →
  q = if decide (0 < count m "total_rules") then
        let applicable_rules :=
          count m "total_rules" - count m "notapplicable_rules"
          - count m "notchecked_rules" in
        if decide (0 < applicable_rules)
        then fmul (fround (inject_Z (count m "passed_rules")
                           / inject_Z applicable_rules)) 100
        else 0%Q
      else 0%Q.
Proof.
  unfold score, getitem, count.
  destruct (m !! "total_rules") as [total|]; simpl; [|done].
  case_decide; [|by intros [= <-]].
  destruct (m !! "notapplicable_rules") as [na|]; simpl; [|done].
  destruct (m !! "notchecked_rules") as [nc|]; simpl; [|done].
  case_decide; [|by intros [= <-]].
  destruct (m !! "passed_rules") as [passed|]; simpl; [|done].
  unfold truediv. rewrite decide_False by lia. simpl. by intros [= <-].
Qed.


(** A successful parse, read back: where the result comes from. *)
Lemma parse_results_Some (now : Q) (fs : filesystem) (xml_file : string)
    (h : option string) (r : SCAPResult) :
  parse_results now fs xml_file h = Ok (Some r) →
  ∃ b rrs, located fs xml_file b rrs
    ∧ counted (rrs ≫= bumped_keys b) r
    ∧ rule_details r = rrs ≫= detail_of b
    ∧ compliance_score r = score_of r.
Proof.
  unfold parse_results, try_except, parse_results_body.
  destruct (ET_parse fs xml_file) as [root|] eqn:Er; simpl; [|done].
  destruct (find_descendant root (xccdf "Benchmark")) as [b|] eqn:Eb; [|done].
  destruct (locate_test_result root) as [tr|] eqn:Et; [|done].
  destruct (for_each _ _ _) as [st|] eqn:Ef; simpl; [|done].
  destruct (score (metrics st)) as [q|] eqn:Eq; simpl; [|done].
  destruct (build_result _ _ _ _ _ _ _ _) as [r'|] eqn:Ebr; simpl; [|done].
  intros [= ->].
  apply for_each_Ok in Ef as (Em & Ed & _); [|done].
  apply build_result_Ok in Ebr. apply score_Ok in Eq.
  simpl in Em, Ed.
  assert (Hc : ∀ k, k ∈ dom initial_metrics →
               count (metrics st) k = occ k (findall tr (xccdf "rule-result") ≫= bumped_keys b)).
  { intros k Hk. rewrite Em, count_foldl_bump.
    apply keys_cases in Hk. rewrite !elem_of_cons, elem_of_nil in Hk.
    destruct Hk as [->|[->|[->|[->|[->|[->|[->|[->|[->|[->|[->|[->|[]]]]]]]]]]]]];
      reflexivity. }
  exists b, (findall tr (xccdf "rule-result")). split_and!.
  - by exists root, tr.
  - subst r. unfold counted; simpl.
    split_and!; apply Hc; apply elem_of_dom; by eexists.
  - by subst r.
  - subst r. unfold score_of; simpl. done.
Qed.

(** ** Counting over the rule-results *)

Lemma number_of_nonneg {A} (P : A → Prop) `{∀ x, Decision (P x)} (l : list A) :
  0 ≤ number_of P l.
Proof. unfold number_of. lia. Qed.

Lemma number_of_cons {A} (P : A → Prop) `{∀ x, Decision (P x)} (x : A) (l : list A) :
  number_of P (x :: l) = (if decide (P x) then 1 else 0) + number_of P l.
Proof. unfold number_of. rewrite filter_cons. case_decide; simpl; lia. Qed.

Lemma number_of_all {A} (l : list A) :
  number_of (λ _, True) l = Z.of_nat (length l).
Proof.
  induction l as [|x l IH]; [done|].
  rewrite number_of_cons, IH. rewrite decide_True by done. simpl length. lia.
Qed.

Lemma number_of_le_length {A} (P : A → Prop) `{∀ x, Decision (P x)} (l : list A) :
  number_of P l ≤ Z.of_nat (length l).
Proof. unfold number_of. pose proof (length_filter P l). lia. Qed.

(** A weight that adds over concatenation and is an indicator on each
    element's keys counts the elements. *)
Lemma weight_bind {A} (w : list string → Z) (f : A → list string)
    (P : A → Prop) `{∀ x, Decision (P x)} (l : list A) :
  w [] = 0 → (∀ a b, w (a ++ b) = w a + w b) →
  (∀ x, w (f x) = if decide (P x) then 1 else 0) →
  w (l ≫= f) = number_of P l.
Proof.
  intros Hnil Happ Hf. induction l as [|x l IH].
  - exact Hnil.
  - rewrite bind_cons, Happ, Hf, IH, number_of_cons. done.
Qed.

Lemma status_occ_app (a b : list string) :
  status_occ (a ++ b) = status_occ a + status_occ b.
Proof. unfold status_occ. rewrite !occ_app. lia. Qed.


Lemma bumped_keys_cases (b rr : element) :
  (unbucketed rr ∧ ¬ failing rr ∧ bumped_keys b rr = ["total_rules"])
  ∨ (¬ unbucketed rr ∧ ¬ failing rr
     ∧ ∃ key, key ∈ ["passed_rules"; "error_rules"; "unknown_rules";
                     "notapplicable_rules"; "notchecked_rules";
                     "informational_rules"]
              ∧ bumped_keys b rr = ["total_rules"; key])
  ∨ (¬ unbucketed rr ∧ failing rr ∧ ¬ listed_severity (severity_of b rr)
     ∧ bumped_keys b rr = ["total_rules"; "failed_rules"])
  ∨ (¬ unbucketed rr ∧ failing rr ∧ listed_severity (severity_of b rr)
     ∧ bumped_keys b rr
       = ["total_rules"; "failed_rules"; severity_key (severity_of b rr)]).
Proof.
  unfold bumped_keys, status_keys, severity_keys, unbucketed, failing.
  destruct (status_of rr) as [s|] eqn:Es; simpl; [|by left].
  destruct (status_mapping !! s) as [key|] eqn:Ek; simpl.
  2: { left. rewrite decide_False.
       - split_and!; [done| |done]. intros [= ->]. done.
       - intros [[= ->] _]. done. }
  right. apply status_mapping_cases in Ek.
  rewrite !elem_of_cons, elem_of_nil in Ek.
  destruct Ek as [E|[E|[E|[E|[E|[E|[E|[]]]]]]]]; injection E as -> ->.
  2: { right. case_decide as Hd.
       - right. by destruct Hd.
       - left. split_and!; [done..| |done]. intros Hl. by apply Hd. }
  all: left; simpl.
  all: split_and!; [done | by intros [=] |].
  all: eexists; split; [|reflexivity]; rewrite !elem_of_cons; tauto.
Qed.

Ltac key_cases b rr :=
  let Hu := fresh "Hu" in let Hf := fresh "Hf" in
  let Hk := fresh "Hk" in let Hl := fresh "Hl" in
  destruct (bumped_keys_cases b rr) as
    [(Hu & Hf & ->)|[(Hu & Hf & ? & Hk & ->)|[(Hu & Hf & Hl & ->)|(Hu & Hf & Hl & ->)]]];
  [ | rewrite !elem_of_cons, elem_of_nil in Hk;
      destruct Hk as [->|[->|[->|[->|[->|[->|[]]]]]]]
    |
    | pose proof Hl as Hk; unfold listed_severity in Hk;
      rewrite !elem_of_cons, elem_of_nil in Hk;
      destruct Hk as [Hk|[Hk|[Hk|[Hk|[]]]]]; rewrite ?Hk in * ].

Lemma occ_total_one (b rr : element) : occ "total_rules" (bumped_keys b rr) = 1.
Proof. key_cases b rr; done. Qed.

Lemma status_occ_indicator (b rr : element) :
  status_occ (bumped_keys b rr) = if decide (unbucketed rr) then 0 else 1.
Proof.
  key_cases b rr; first [rewrite decide_True by done | rewrite decide_False by done];
    done.
Qed.

Lemma occ_failed_indicator (b rr : element) :
  occ "failed_rules" (bumped_keys b rr) = if decide (failing rr) then 1 else 0.
Proof.
  key_cases b rr; first [rewrite decide_True by done | rewrite decide_False by done];
    done.
Qed.

Lemma occ_severity_indicator (b rr : element) (sev : string) :
  listed_severity sev →
  occ (severity_key sev) (bumped_keys b rr)
  = if decide (failing_with b sev rr) then 1 else 0.
Proof.
  intros Hs. pose proof Hs as Hs'. unfold listed_severity in Hs'.
  rewrite !elem_of_cons, elem_of_nil in Hs'.
  destruct (decide (failing_with b sev rr)) as [[Hfl E]|N].
  - key_cases b rr; try (by destruct Hf); try (by rewrite E in Hl).
    all: try rewrite Hk in E; subst sev; rewrite ?Hk; reflexivity.
  - key_cases b rr.
    1-8: destruct Hs' as [->|[->|[->|[->|[]]]]]; reflexivity.
    all: rewrite ?Hk; destruct Hs' as [->|[->|[->|[->|[]]]]];
      first [reflexivity | exfalso; apply N; by split].
Qed.

(** What the counters of a successful parse count. *)
Lemma counted_counts (b : element) (rrs : list element) (r : SCAPResult) :
  counted (rrs ≫= bumped_keys b) r →
  total_rules r = Z.of_nat (length rrs)
  ∧ status_total r = number_of (λ rr, ¬ unbucketed rr) rrs
  ∧ failed_rules r = number_of failing rrs
  ∧ severity_high_failed r = number_of (failing_with b "high") rrs
  ∧ severity_medium_failed r = number_of (failing_with b "medium") rrs
  ∧ severity_low_failed r = number_of (failing_with b "low") rrs
  ∧ severity_info_failed r = number_of (failing_with b "info") rrs.
Proof.
  intros (Ht & Hp & Hf & He & Hu & Hna & Hnc & Hi & Hh & Hm & Hl & Hin).
  split_and!.
  - rewrite Ht. rewrite (weight_bind (occ "total_rules") _ (λ _, True)).
    + apply number_of_all.
    + done.
    + intros; apply occ_app.
    + intros rr. by rewrite occ_total_one.
  - unfold status_total. rewrite Hp, Hf, He, Hu, Hna, Hnc, Hi.
    fold (status_occ (rrs ≫= bumped_keys b)).
    apply weight_bind; [done | apply status_occ_app |].
    intros rr. rewrite status_occ_indicator.
    destruct (decide (unbucketed rr)).
    + by rewrite decide_False by tauto.
    + by rewrite decide_True.
  - rewrite Hf. apply weight_bind; [done | intros; apply occ_app |].
    apply occ_failed_indicator.
  - rewrite Hh. apply weight_bind; [done | intros; apply occ_app |].
    intros rr. apply (occ_severity_indicator b rr "high"). set_solver.
  - rewrite Hm. apply weight_bind; [done | intros; apply occ_app |].
    intros rr. apply (occ_severity_indicator b rr "medium"). set_solver.
  - rewrite Hl. apply weight_bind; [done | intros; apply occ_app |].
    intros rr. apply (occ_severity_indicator b rr "low"). set_solver.
  - rewrite Hin. apply weight_bind; [done | intros; apply occ_app |].
    intros rr. apply (occ_severity_indicator b rr "info"). set_solver.
Qed.
End Parser.

(** ** The claims about the parser *)

Lemma number_of_split {A} (P : A → Prop) `{∀ x, Decision (P x)} (l : list A) :
  number_of P l + number_of (λ x, ¬ P x) l = Z.of_nat (length l).
Proof.
  induction l as [|x l IH]; [done|].
  rewrite !number_of_cons. simpl length.
  destruct (decide (P x)).
  - rewrite decide_False by tauto. lia.
  - rewrite decide_True by done. lia.
Qed.

Section Claims.
Context `{PyLib}.

Lemma severity_le_failing (b : element) (rrs : list element) :
  number_of (failing_with b "high") rrs + number_of (failing_with b "medium") rrs
  + number_of (failing_with b "low") rrs + number_of (failing_with b "info") rrs
  ≤ number_of failing rrs.
Proof.
  induction rrs as [|rr rrs IH]; [done|].
  rewrite !number_of_cons. unfold failing_with, failing in *.
  repeat case_decide; destruct_and?; try lia; congruence.
Qed.

Lemma severity_sum_counts (b : element) (rrs : list element) :
  number_of (failing_with b "high") rrs + number_of (failing_with b "medium") rrs
  + number_of (failing_with b "low") rrs + number_of (failing_with b "info") rrs
  = number_of (λ rr, failing rr ∧ listed_severity (severity_of b rr)) rrs.
Proof.
  induction rrs as [|rr rrs IH]; [done|].
  rewrite !number_of_cons, <- IH. clear IH.
  repeat case_decide; try lia; exfalso;
    unfold failing_with, failing, listed_severity in *; set_unfold;
    intuition congruence.
Qed.

(** Every counter of a successful parse is non-negative, and the status
    buckets together do not exceed the total. *)
Lemma counters_bounds (now : Q) (fs : filesystem) (xml_file : string)
    (h : option string) (r : SCAPResult) :
  parse_results now fs xml_file h = Ok (Some r) →
  0 ≤ total_rules r ∧ 0 ≤ passed_rules r ∧ 0 ≤ notapplicable_rules r
  ∧ 0 ≤ notchecked_rules r
  ∧ passed_rules r + notapplicable_rules r + notchecked_rules r ≤ total_rules r.
Proof.
  intros (b & rrs & _ & Hc & _ & _)%parse_results_Some.
  pose proof (counted_counts _ _ _ Hc) as (Ht & Hs & _).
  pose proof (number_of_split unbucketed rrs) as Hsplit.
  pose proof (number_of_nonneg unbucketed rrs).
  destruct Hc as (Ht' & Hp & Hf & He & Hu & Hna & Hnc & Hi & _).
  unfold status_total in Hs.
  pose proof (occ_nonneg "passed_rules" (rrs ≫= bumped_keys b)).
  pose proof (occ_nonneg "failed_rules" (rrs ≫= bumped_keys b)).
  pose proof (occ_nonneg "error_rules" (rrs ≫= bumped_keys b)).
  pose proof (occ_nonneg "unknown_rules" (rrs ≫= bumped_keys b)).
  pose proof (occ_nonneg "notapplicable_rules" (rrs ≫= bumped_keys b)).
  pose proof (occ_nonneg "notchecked_rules" (rrs ≫= bumped_keys b)).
  pose proof (occ_nonneg "informational_rules" (rrs ≫= bumped_keys b)).
  lia.
Qed.

(** C1, as amended. In a successful parse [total_rules] is the number of
    rule-result elements, and it equals the sum of the seven status buckets
    plus the number of rule-results that reach no bucket (no result element,
    or a status outside the seven keywords). So the sum never exceeds the
    total, and the two are equal when every rule-result has a known status. *)
Theorem total_is_buckets_plus_unbucketed (now : Q) (fs : filesystem)
    (xml_file : string) (h : option string) (r : SCAPResult) :
  parse_results now fs xml_file h = Ok (Some r) →
  ∃ b rrs, located fs xml_file b rrs
    ∧ total_rules r = Z.of_nat (length rrs)
    ∧ total_rules r = status_total r + number_of unbucketed rrs
    ∧ status_total r ≤ total_rules r.
Proof.
  intros (b & rrs & Hloc & Hc & _ & _)%parse_results_Some.
  pose proof (counted_counts _ _ _ Hc) as (Ht & Hs & _).
  pose proof (number_of_split unbucketed rrs) as Hsplit.
  pose proof (number_of_nonneg unbucketed rrs).
  exists b, rrs. split_and!; [done | done | lia | lia].
Qed.

(** C3. In a successful parse the four severity buckets together do not
    exceed [failed_rules]: [failed_rules] counts the rule-results with status
    fail, and the bucket of each of high, medium, low and info counts those
    among them whose resolved severity is that label. So the buckets
    together count the failed rules with one of the four severities, each
    once, and a failed rule with any other severity is in [failed_rules]
    and in no bucket. *)
Theorem severity_buckets_within_failed (now : Q) (fs : filesystem)
    (xml_file : string) (h : option string) (r : SCAPResult) :
  parse_results now fs xml_file h = Ok (Some r) →
  severity_total r ≤ failed_rules r
  ∧ ∃ b rrs, located fs xml_file b rrs
      ∧ failed_rules r = number_of failing rrs
      ∧ severity_high_failed r = number_of (failing_with b "high") rrs
      ∧ severity_medium_failed r = number_of (failing_with b "medium") rrs
      ∧ severity_low_failed r = number_of (failing_with b "low") rrs
      ∧ severity_info_failed r = number_of (failing_with b "info") rrs
      ∧ severity_total r
        = number_of (λ rr, failing rr ∧ listed_severity (severity_of b rr)) rrs.
Proof.
  intros (b & rrs & Hloc & Hc & _ & _)%parse_results_Some.
  pose proof (counted_counts _ _ _ Hc) as (_ & _ & Hf & Hh & Hm & Hl & Hi).
  split.
  - unfold severity_total. rewrite Hf, Hh, Hm, Hl, Hi. apply severity_le_failing.
  - exists b, rrs. split_and!; [done..|].
    unfold severity_total. rewrite Hh, Hm, Hl, Hi. apply severity_sum_counts.
Qed.

Lemma score_of_formula (r : SCAPResult) :
  0 ≤ total_rules r → 0 ≤ notapplicable_rules r → 0 ≤ notchecked_rules r →
  score_of r = score_formula r.
Proof.
  intros Ht Hna Hnc. unfold score_of, score_formula. simpl.
  destruct (decide (0 < total_rules r)); [done|].
  rewrite decide_False by lia. done.
Qed.

Lemma score_formula_bounds (r : SCAPResult) :
  0 ≤ passed_rules r →
  passed_rules r ≤ total_rules r - notapplicable_rules r - notchecked_rules r →
  (0 <= score_formula r)%Q ∧ (score_formula r <= 100)%Q.
Proof.
  intros Hp Hle. unfold score_formula. simpl.
  set (a := total_rules r - notapplicable_rules r - notchecked_rules r) in *.
  case_decide as Ha; [|done].
  assert (0 < inject_Z a)%Q as Hqa by (unfold Qlt; simpl; lia).
  set (q := fround (inject_Z (passed_rules r) / inject_Z a)).
  assert (0 <= q)%Q as H0.
  { rewrite <- fround_0. apply fround_le.
    apply Qle_shift_div_l; [done|]. rewrite Qmult_0_l. unfold Qle; simpl; lia. }
  assert (q <= 1)%Q as H1.
  { rewrite <- fround_1. apply fround_le.
    apply Qle_shift_div_r; [done|]. rewrite Qmult_1_l. unfold Qle; simpl; lia. }
  unfold fmul. split.
  - rewrite <- fround_0. apply fround_le. apply Qmult_le_0_compat; [done | done].
  - rewrite <- fround_100 at 2. apply fround_le.
    change 100%Q with (1 * 100)%Q at 2. apply Qmult_le_compat_r; [done | done].
Qed.

Lemma build_result_initial (th : option string) (p : string) (t c : Q)
    (bid bv : string) (ds : list rule_detail) :
  build_result th p t c bid bv ds initial_metrics
  = Ok (mkSCAPResult th p t 0 0 0 0 0 0 0 0 c 0 0 0 0 bid bv ds).
Proof. reflexivity. Qed.

(** C2. In a successful parse the score is the quotient
    [passed / (total - notapplicable - notchecked) * 100] when that
    denominator is positive and zero otherwise, and lies between 0 and 100;
    a document without rule-results parses, with total 0 and score 0. *)
Theorem compliance_score_formula (now : Q) (fs : filesystem) (xml_file : string)
    (h : option string) :
  (∀ r, parse_results now fs xml_file h = Ok (Some r) →
        compliance_score r = score_formula r
        ∧ (0 <= compliance_score r)%Q ∧ (compliance_score r <= 100)%Q)
  ∧ (∀ b, located fs xml_file b [] →
          ∃ r, parse_results now fs xml_file h = Ok (Some r)
               ∧ total_rules r = 0 ∧ compliance_score r = 0%Q).
Proof.
  split.
  - intros r Hr. pose proof (counters_bounds _ _ _ _ _ Hr) as (Ht & Hp & Hna & Hnc & Hle).
    apply parse_results_Some in Hr as (_ & _ & _ & _ & _ & ->).
    rewrite score_of_formula by done.
    split; [done|]. apply score_formula_bounds; lia.
  - intros b (root & tr & Er & Eb & Et & Ef).
    unfold parse_results, parse_results_body. rewrite Er; simpl.
    rewrite Eb, Et, <- Ef. simpl.
    change (score initial_metrics) with (Ok 0%Q : outcome Q). simpl.
    rewrite build_result_initial. simpl. by eexists.
Qed.

(** C4, as amended. An iteration over a rule-result whose lower-cased
    status is none of the seven keywords increments [total_rules], changes
    no other counter, does not raise (the rule lookup permitting), and
    appends one detail entry with the status as read. Only a rule-result
    without a result element leaves the detail list as it is. *)
Theorem unknown_status_iteration (b : element) (st : loop_state) (rr : element)
    (total : Z) :
  metrics st !! "total_rules" = Some total →
  (find rr (xccdf "result") = None →
   process_rule_result b st rr
   = Ok (LoopState (<["total_rules" := total + 1]> (metrics st)) (details st)))
  ∧ (∀ e t d,
       find rr (xccdf "result") = Some e → text e = Some t →
       ¬ known_status (str_lower t) →
       find_rule b (get rr "idref" "") = Ok d →
       process_rule_result b st rr
       = Ok (LoopState (<["total_rules" := total + 1]> (metrics st))
               (details st ++
                [RuleDetail (get rr "idref" "")
                   (resolve_rule d (get rr "idref" "")).2
                   (str_lower t)
                   (resolve_rule d (get rr "idref" "")).1]))).
Proof.
  intros Ht. unfold process_rule_result, iadd1, getitem. rewrite Ht. simpl. split.
  - by intros ->.
  - intros e t d -> -> Hs Hd. simpl.
    assert (status_mapping !! str_lower t = None) as ->.
    { unfold known_status in Hs. by apply eq_None_not_Some. }
    simpl. rewrite Hd. simpl.
    destruct (resolve_rule d (get rr "idref" "")) as [sev ttl]. simpl.
    rewrite decide_False; [done|].
    intros E. apply Hs. rewrite E. by eexists.
Qed.

Lemma iter_unfold (e : element) : iter e = e :: descendants e.
Proof. by destruct e. Qed.

(** C7. A well-formed document in which no element, the root included, is
    an XCCDF [Benchmark] yields no result, whatever else it holds. *)
Theorem no_benchmark_no_result (now : Q) (fs : filesystem) (xml_file : string)
    (h : option string) (root : element) :
  fs !! xml_file = Some (Ok root) →
  Forall (λ e, tag e ≠ xccdf "Benchmark") (iter root) →
  parse_results now fs xml_file h = Ok None.
Proof.
  intros Hf Hall. rewrite iter_unfold in Hall. apply Forall_cons in Hall as [_ Hd].
  unfold parse_results, parse_results_body, ET_parse. rewrite Hf. simpl.
  unfold find_descendant.
  assert (filter (λ c, tag c = xccdf "Benchmark") (descendants root) = []) as ->.
  { induction (descendants root) as [|x l IH]; [done|].
    apply Forall_cons in Hd as [Hx Hl].
    rewrite filter_cons, decide_False by done. by apply IH. }
  done.
Qed.

Lemma for_each_Raise {S A} (body : S → A → outcome S) (x : A) (l : list A) :
  (∀ s, ∃ e, body s x = Raise e) → x ∈ l →
  ∀ s, ∃ e, for_each body s l = Raise e.
Proof.
  intros Hx. induction l as [|y l IH]; intros Hin s.
  - by apply elem_of_nil in Hin.
  - simpl. destruct (body s y) as [s'|e] eqn:Ey; simpl; [|by eexists].
    apply elem_of_cons in Hin as [->|Hin]; [|by apply IH].
    destruct (Hx s) as [e He]. congruence.
Qed.

(** C10. [parse_results] never raises: it returns a result or [None]. And
    when a rule-result of the test result it works on has a result element
    without text, it returns [None], whatever the other rule-results are. *)
Theorem empty_result_aborts_parse (now : Q) (fs : filesystem) (xml_file : string)
    (h : option string) :
  (∃ o, parse_results now fs xml_file h = Ok o)
  ∧ (∀ root tr rr e,
       ET_parse fs xml_file = Ok root → locate_test_result root = Some tr →
       rr ∈ findall tr (xccdf "rule-result") →
       find rr (xccdf "result") = Some e → text e = None →
       parse_results now fs xml_file h = Ok None).
Proof.
  split.
  - unfold parse_results, try_except.
    destruct (parse_results_body now fs xml_file h); by eexists.
  - intros root tr rr e Er Et Hin He Ht.
    unfold parse_results, parse_results_body. rewrite Er; simpl.
    destruct (find_descendant root (xccdf "Benchmark")) as [b|]; [|done].
    rewrite Et.
    destruct (for_each_Raise (process_rule_result b) rr
                (findall tr (xccdf "rule-result"))) with
      (s := LoopState initial_metrics []) as [ex Hex]; [|done|].
    + intros s. unfold process_rule_result.
      destruct (iadd1 (metrics s) "total_rules"); simpl; [|by eexists].
      rewrite He, Ht. simpl. by eexists.
    + rewrite Hex. done.
Qed.

Lemma scan_time_of_default (now : Q) (tr : element) :
  scan_time_of now tr = default now (start_time_parsed tr).
Proof.
  unfold scan_time_of, start_time_parsed.
  destruct (find tr (xccdf "start-time")) as [e|]; simpl; [|done].
  destruct (text e) as [t|]; simpl; [|done].
  by destruct (iso_timestamp _).
Qed.

Lemma build_result_scan_time (th : option string) (p : string) (t1 t2 c : Q)
    (bid bv : string) (ds : list rule_detail) (m : gmap string Z) :
  build_result th p t2 c bid bv ds m
  = match build_result th p t1 c bid bv ds m with
    | Ok r => Ok (set_scan_time t2 r)
    | Raise e => Raise e
    end.
Proof. unfold build_result. repeat case_match; done. Qed.

Lemma build_result_time (th : option string) (p : string) (t c : Q)
    (bid bv : string) (ds : list rule_detail) (m : gmap string Z) (r : SCAPResult) :
  build_result th p t c bid bv ds m = Ok r → scan_time r = t.
Proof. intros ->%build_result_Ok. done. Qed.

(** C8. Two parses of the same file with the same caller hostname, at any
    two clock readings, both fail or both succeed; the results agree in
    every field but [scan_time], and their scan times differ only if the
    test result has no start time that parses. *)
Theorem reparse_same_but_scan_time (now1 now2 : Q) (fs : filesystem)
    (xml_file : string) (h : option string) :
  match parse_results now1 fs xml_file h, parse_results now2 fs xml_file h with
  | Ok (Some r1), Ok (Some r2) =>
      r2 = set_scan_time (scan_time r2) r1
      ∧ (scan_time r1 ≠ scan_time r2 →
         ∃ root tr, ET_parse fs xml_file = Ok root
                    ∧ locate_test_result root = Some tr
                    ∧ start_time_parsed tr = None)
  | Ok None, Ok None => True
  | _, _ => False
  end.
Proof.
  unfold parse_results, try_except, parse_results_body.
  destruct (ET_parse fs xml_file) as [root|] eqn:Er; simpl; [|done].
  destruct (find_descendant root (xccdf "Benchmark")) as [b|]; [|done].
  destruct (locate_test_result root) as [tr|] eqn:Et; [|done].
  destruct (for_each _ _ _) as [st|]; simpl; [|done].
  destruct (score (metrics st)) as [q|]; simpl; [|done].
  rewrite (build_result_scan_time _ _ (scan_time_of now1 tr) (scan_time_of now2 tr)).
  destruct (build_result _ _ (scan_time_of now1 tr) _ _ _ _ _) as [r1|] eqn:E1;
    simpl; [|done].
  apply build_result_time in E1. split; [reflexivity|].
  simpl. rewrite E1, !scan_time_of_default. intros Hne.
  exists root, tr. split_and!; [done..|].
  destruct (start_time_parsed tr); [by destruct Hne | done].
Qed.
End Claims.

Section Service.
Context `{PyLib} `{OS} `{PromClient Registry}.

(** C5, as amended. The exporter's handler never answers [/metrics] with
    503: whenever the encoder returns, the answer is 200 with the text
    exposition, before any update as well as after, and when the encoder
    raises the answer is the error page with status 500. The handler of
    [metrics_server.py] answers 503 exactly while the module-level exporter
    is unset; once it is set it answers as the exporter's handler does, 200
    with the exposition or 500 when the encoder raises. *)
Theorem metrics_endpoint_status (e : PrometheusExporter.t) :
  status (MetricsHTTPHandler.do_GET e "/metrics") ≠ 503
  ∧ (∀ text, generate_latest (registry e) = Ok text →
       MetricsHTTPHandler.do_GET e "/metrics"
       = Response 200 "text/plain; charset=utf-8" (Exposition text)
       ∧ MetricsHandler.do_GET (Some e) "/metrics"
         = Response 200 "text/plain; charset=utf-8" (Exposition text))
  ∧ (∀ ex, generate_latest (registry e) = Raise ex →
       MetricsHTTPHandler.do_GET e "/metrics" = send_error 500
       ∧ status (MetricsHTTPHandler.do_GET e "/metrics") = 500
       ∧ MetricsHandler.do_GET (Some e) "/metrics" = send_error 500
       ∧ status (MetricsHandler.do_GET (Some e) "/metrics") = 500)
  ∧ (∀ oe, status (MetricsHandler.do_GET oe "/metrics") = 503 ↔ oe = None).
Proof.
  unfold MetricsHTTPHandler.do_GET, MetricsHandler.do_GET. simpl. split_and!.
  - by destruct (generate_latest (registry e)).
  - by intros text ->.
  - by intros ex ->.
  - intros [e'|]; [|done]. by destruct (generate_latest (registry e')).
Qed.

(** C6. Once the scanner process has run to completion, [scan] returns the
    results path and leaves the file as the scanner wrote it when the exit
    code is at most 2 (so for 0, 1 and 2); when the code exceeds 2 it returns
    [None], the results file is gone, and the daemon's cycle leaves the
    exporter as it was. *)
Theorem scan_exit_code (self : SCAPScanner.t) (profile : string)
    (content_file target : option string) (fs fs1 fs2 : filesystem)
    (results_file content stderr : string) (returncode : Z) :
  mkstemp fs = Ok (results_file, fs1) →
  SCAPScanner.resolve_content self fs1 content_file = Some content →
  subprocess_run (SCAPScanner.build_cmd self profile results_file target content) fs1
  = (Completed returncode stderr, fs2) →
  (returncode ≤ 2 →
   SCAPScanner.scan self profile content_file target fs = (Some results_file, fs2))
  ∧ (2 < returncode →
     (SCAPScanner.scan self profile content_file target fs).1 = None
     ∧ (SCAPScanner.scan self profile content_file target fs).2 !! results_file = None
     ∧ ∀ now d, SCAPExporterDaemon.scanner d = self → target = None →
         SCAPExporterDaemon.exporter
           (SCAPExporterDaemon.scan_and_update now d profile content_file fs).1
         = SCAPExporterDaemon.exporter d).
Proof.
  intros Hmk Hc Hrun. unfold SCAPScanner.scan. rewrite Hmk, Hc, Hrun. split.
  - intros Hle. by rewrite decide_False by lia.
  - intros Hgt. rewrite decide_True by done.
    assert (∃ fs3, (match unlink results_file fs2 with
                    | Ok fs3 => (None, fs3) | Raise _ => (None, fs2) end)
                   = (@None string, fs3) ∧ fs3 !! results_file = None)
      as (fs3 & E & Hgone).
    { unfold unlink. destruct (fs2 !! results_file) eqn:Ef.
      - eexists. split; [done|]. apply lookup_delete_eq.
      - by exists fs2. }
    rewrite E. split_and!; [done..|].
    intros now d <- ->. unfold SCAPExporterDaemon.scan_and_update, SCAPScanner.scan.
    rewrite Hmk, Hc, Hrun, decide_True by done. rewrite E. done.
Qed.

Lemma update_metrics_stores (e e' : PrometheusExporter.t) (r : SCAPResult) :
  update_metrics e r = (e', Ok ()) →
  latest_results e' = <[result_key r := r]> (latest_results e).
Proof.
  unfold update_metrics.
  destruct (fromtimestamp_isoformat (scan_time r)); [|done].
  by intros [= <-].
Qed.

(** C9. An [update_metrics] that returns stores the record under the key
    hostname + "_" + profile. The pairs ("a_b", "c") and ("a", "b_c") differ
    and have the same key, so after an update for the first and one for the
    second only the second record is stored, as if the first update had not
    happened, and [/results] shows that single entry. *)
Theorem result_key_collision (e e1 : PrometheusExporter.t) (r1 : SCAPResult) :
  update_metrics e r1 = (e1, Ok ()) →
  latest_results e1
  = <[str (hostname r1) +:+ "_" +:+ profile r1 := r1]> (latest_results e)
  ∧ ∀ e2 r2,
      hostname r1 = Some "a_b" → profile r1 = "c" →
      hostname r2 = Some "a" → profile r2 = "b_c" →
      update_metrics e1 r2 = (e2, Ok ()) →
      (hostname r1, profile r1) ≠ (hostname r2, profile r2)
      ∧ result_key r1 = result_key r2
      ∧ latest_results e1 !! "a_b_c" = Some r1
      ∧ latest_results e2 !! "a_b_c" = Some r2
      ∧ latest_results e2 = <["a_b_c" := r2]> (latest_results e)
      ∧ payload (MetricsHTTPHandler.do_GET e2 "/results")
        = ResultsPayload (<["a_b_c" := r2]> (latest_results e)).
Proof.
  intros Hu1%update_metrics_stores. split; [exact Hu1|].
  intros e2 r2 Hh1 Hp1 Hh2 Hp2 Hu2%update_metrics_stores.
  assert (result_key r1 = "a_b_c") as K1 by (unfold result_key; by rewrite Hh1, Hp1).
  assert (result_key r2 = "a_b_c") as K2 by (unfold result_key; by rewrite Hh2, Hp2).
  rewrite K1 in Hu1. rewrite K2 in Hu2.
  assert (latest_results e2 = <["a_b_c" := r2]> (latest_results e)) as E2.
  { rewrite Hu2, Hu1. apply insert_insert_eq. }
  split_and!.
  - rewrite Hh1, Hp1, Hh2, Hp2. done.
  - by rewrite K1, K2.
  - rewrite Hu1. apply lookup_insert_eq.
  - rewrite Hu2. apply lookup_insert_eq.
  - exact E2.
  - unfold MetricsHTTPHandler.do_GET. simpl. by rewrite E2.
Qed.
End Service.

(** ** Further properties of the parser *)

Lemma lookup_bump (m : gmap string Z) (a k : string) :
  bump m a !! k = if decide (a = k) then Some (count m a + 1) else m !! k.
Proof. unfold bump. by rewrite lookup_insert. Qed.

Lemma bump_comm (m : gmap string Z) (a b : string) :
  bump (bump m a) b = bump (bump m b) a.
Proof.
  apply map_eq. intros k. rewrite !lookup_bump, !count_bump.
  repeat case_decide; simplify_eq; try done; f_equal; lia.
Qed.

Lemma foldl_bump_permutation (ks1 ks2 : list string) :
  ks1 ≡ₚ ks2 → ∀ m, foldl bump m ks1 = foldl bump m ks2.
Proof.
  induction 1 as [|x l1 l2 _ IH|x y l|l1 l2 l3 _ IH1 _ IH2]; intros m; simpl.
  - done.
  - apply IH.
  - by rewrite bump_comm.
  - by rewrite IH1.
Qed.

Section ParserMore.
Context `{PyLib}.

Lemma process_rule_result_processable (b : element) (st st' : loop_state)
    (rr : element) :
  process_rule_result b st rr = Ok st' → processable b rr.
Proof.
  unfold process_rule_result, processable.
  destruct (iadd1 (metrics st) "total_rules"); simpl; [|done].
  destruct (find rr (xccdf "result")) as [e|]; [|done].
  destruct (text e) as [t|]; simpl; [|done].
  destruct (match status_mapping !! str_lower t with
            | Some key => iadd1 a key | None => Ok a end); simpl; [|done].
  destruct (find_rule b (get rr "idref" "")); simpl; [|done].
  intros _. split; [by eexists | done].
Qed.

Lemma processable_progress (b : element) (st : loop_state) (rr : element) :
  well_keyed (metrics st) → processable b rr →
  ∃ st', process_rule_result b st rr = Ok st'.
Proof.
  intros Hm Hp. unfold process_rule_result, processable in *.
  assert ("total_rules" ∈ dom (metrics st)) as H1.
  { rewrite Hm. apply elem_of_dom. by eexists. }
  assert (iadd1 (metrics st) "total_rules" = Ok (bump (metrics st) "total_rules")) as ->.
  { apply iadd1_Ok. done. }
  assert (Hm1 : well_keyed (bump (metrics st) "total_rules")).
  { apply well_keyed_bump; [done|]. by rewrite <- Hm. }
  simpl. destruct (find rr (xccdf "result")) as [e|]; [|by eexists].
  destruct Hp as [[t Ht] Hr]. rewrite Ht. simpl.
  assert (∃ m2, match status_mapping !! str_lower t with
                | Some key => iadd1 (bump (metrics st) "total_rules") key
                | None => Ok (bump (metrics st) "total_rules")
                end = Ok m2 ∧ well_keyed m2) as (m2 & -> & Hm2).
  { destruct (status_mapping !! str_lower t) as [key|] eqn:Es; [|by eexists].
    apply status_mapping_key in Es. eexists. split.
    - apply iadd1_Ok. split; [|done]. by rewrite Hm1.
    - by apply well_keyed_bump. }
  simpl. destruct (find_rule b (get rr "idref" "")) as [d|]; [|done]. simpl.
  destruct (resolve_rule d (get rr "idref" "")) as [sev ttl].
  destruct (decide (str_lower t = "fail")); [|by eexists].
  destruct (decide (is_Some (m2 !! severity_key sev))) as [Hs|]; [|by eexists].
  assert (iadd1 m2 (severity_key sev) = Ok (bump m2 (severity_key sev))) as ->.
  { apply iadd1_Ok. split; [|done]. by apply elem_of_dom. }
  by eexists.
Qed.

Lemma for_each_processable (b : element) (l : list element) (st st' : loop_state) :
  for_each (process_rule_result b) st l = Ok st' → Forall (processable b) l.
Proof.
  revert st. induction l as [|rr l IH]; intros st; simpl; [done|].
  destruct (process_rule_result b st rr) as [st1|] eqn:E; simpl; [|done].
  intros Hl. constructor; [by eapply process_rule_result_processable | by eapply IH].
Qed.

Lemma for_each_progress (b : element) (l : list element) (st : loop_state) :
  well_keyed (metrics st) → Forall (processable b) l →
  ∃ st', for_each (process_rule_result b) st l = Ok st' ∧ well_keyed (metrics st').
Proof.
  revert st. induction l as [|rr l IH]; intros st Hm Hl; simpl; [by eexists|].
  apply Forall_cons in Hl as [Hrr Hl].
  destruct (processable_progress b st rr Hm Hrr) as [st1 E1]. rewrite E1. simpl.
  apply process_rule_result_Ok in E1 as (_ & _ & Hm1); [|done].
  by apply IH.
Qed.

Lemma well_keyed_lookup (m : gmap string Z) (k : string) :
  well_keyed m → k ∈ dom initial_metrics → m !! k = Some (count m k).
Proof.
  intros Hm Hk. rewrite <- Hm in Hk. apply elem_of_dom in Hk as [v Hv].
  unfold count. by rewrite Hv.
Qed.

Lemma score_total (m : gmap string Z) : well_keyed m → ∃ q, score m = Ok q.
Proof.
  intros Hm. unfold score, getitem.
  rewrite (well_keyed_lookup m "total_rules" Hm) by (apply elem_of_dom; by eexists).
  simpl. case_decide; [|by eexists].
  rewrite (well_keyed_lookup m "notapplicable_rules" Hm) by (apply elem_of_dom; by eexists).
  rewrite (well_keyed_lookup m "notchecked_rules" Hm) by (apply elem_of_dom; by eexists).
  simpl. case_decide; [|by eexists].
  rewrite (well_keyed_lookup m "passed_rules" Hm) by (apply elem_of_dom; by eexists).
  simpl. unfold truediv. rewrite decide_False by lia. simpl. by eexists.
Qed.

Lemma build_result_total (th : option string) (p : string) (t c : Q)
    (bid bv : string) (ds : list rule_detail) (m : gmap string Z) :
  well_keyed m → ∃ r, build_result th p t c bid bv ds m = Ok r.
Proof.
  intros Hm. unfold build_result.
  rewrite !(well_keyed_lookup m _ Hm) by (apply elem_of_dom; by eexists).
  rewrite decide_True; [by eexists|].
  rewrite <- size_dom, Hm, size_dom. reflexivity.
Qed.

(** X1. [parse_results] returns a result exactly when the file parses, a
    benchmark and a test result are found, and every rule-result of the test
    result either has no result element or has one with text and a rule
    lookup that returns. *)
Theorem parse_results_succeeds_iff (now : Q) (fs : filesystem) (xml_file : string)
    (h : option string) :
  (∃ r, parse_results now fs xml_file h = Ok (Some r))
  ↔ ∃ b rrs, located fs xml_file b rrs ∧ Forall (processable b) rrs.
Proof.
  split.
  - intros [r Hr]. unfold parse_results, try_except, parse_results_body in Hr.
    destruct (ET_parse fs xml_file) as [root|] eqn:Er; simpl in Hr; [|done].
    destruct (find_descendant root (xccdf "Benchmark")) as [b|] eqn:Eb; [|done].
    destruct (locate_test_result root) as [tr|] eqn:Et; [|done].
    destruct (for_each _ _ _) as [st|] eqn:Ef; simpl in Hr; [|done].
    apply for_each_processable in Ef.
    exists b, (findall tr (xccdf "rule-result")). split; [|done].
    by exists root, tr.
  - intros (b & rrs & (root & tr & Er & Eb & Et & ->) & Hall).
    unfold parse_results, try_except, parse_results_body. rewrite Er. simpl.
    rewrite Eb, Et.
    destruct (for_each_progress b _ (LoopState initial_metrics []) eq_refl Hall)
      as (st & -> & Hm). simpl.
    destruct (score_total _ Hm) as [q ->]. simpl.
    edestruct (build_result_total) as [r ->]; [exact Hm|]. simpl. by eexists.
Qed.

Lemma length_bind_detail (b : element) (rrs : list element) :
  Z.of_nat (length (rrs ≫= detail_of b)) = number_of has_status rrs.
Proof.
  induction rrs as [|rr rrs IH]; [done|].
  rewrite bind_cons, length_app, number_of_cons, Nat2Z.inj_add, IH.
  destruct (decide (has_status rr)) as [[s Hs]|Hn]; unfold detail_of.
  - by rewrite Hs.
  - destruct (status_of rr) eqn:Es; [|done]. destruct Hn. unfold has_status.
    rewrite Es. by eexists.
Qed.

(** X2. In a successful parse [rule_details] lists, in document order, one
    entry for each rule-result that has a status; its length is the number
    of those rule-results and never exceeds [total_rules]. *)
Theorem rule_details_in_document_order (now : Q) (fs : filesystem)
    (xml_file : string) (h : option string) (r : SCAPResult) :
  parse_results now fs xml_file h = Ok (Some r) →
  ∃ b rrs, located fs xml_file b rrs
    ∧ rule_details r = rrs ≫= detail_of b
    ∧ Z.of_nat (length (rule_details r)) = number_of has_status rrs
    ∧ Z.of_nat (length (rule_details r)) ≤ total_rules r.
Proof.
  intros (b & rrs & Hloc & Hc & Hd & _)%parse_results_Some.
  pose proof (counted_counts _ _ _ Hc) as (Ht & _).
  exists b, rrs. split_and!; [done | done | |].
  - rewrite Hd. apply length_bind_detail.
  - rewrite Hd, length_bind_detail, Ht. apply number_of_le_length.
Qed.

(** X3. The caller's hostname is a fallback only. When the test result has
    a target element, the parse does not depend on the caller's hostname and
    the record's hostname is that element's text ([None] when it is empty);
    without a target element it is the caller's hostname, or "unknown" when
    that is missing or empty. *)
Theorem hostname_precedence (now : Q) (fs : filesystem) (xml_file : string)
    (root tr : element) :
  ET_parse fs xml_file = Ok root → locate_test_result root = Some tr →
  (∀ e, find tr (xccdf "target") = Some e →
     ∀ h1 h2, parse_results now fs xml_file h1 = parse_results now fs xml_file h2
              ∧ ∀ r, parse_results now fs xml_file h1 = Ok (Some r) →
                     hostname r = text e)
  ∧ (find tr (xccdf "target") = None →
     ∀ h r, parse_results now fs xml_file h = Ok (Some r) →
            hostname r = Some (or_else h "unknown")).
Proof.
  intros Er Et. unfold parse_results, try_except, parse_results_body.
  rewrite Er. simpl.
  destruct (find_descendant root (xccdf "Benchmark")) as [b|]; [|by split].
  rewrite Et. split.
  - intros e ->. intros h1 h2. split; [done|]. intros r.
    destruct (for_each _ _ _) as [st|]; simpl; [|done].
    destruct (score (metrics st)) as [q|]; simpl; [|done].
    destruct (build_result _ _ _ _ _ _ _ _) as [r'|] eqn:Ebr; simpl; [|done].
    intros [= <-]. by apply build_result_Ok in Ebr as ->.
  - intros ->. intros h r.
    destruct (for_each _ _ _) as [st|]; simpl; [|done].
    destruct (score (metrics st)) as [q|]; simpl; [|done].
    destruct (build_result _ _ _ _ _ _ _ _) as [r'|] eqn:Ebr; simpl; [|done].
    intros [= <-]. by apply build_result_Ok in Ebr as ->.
Qed.

Lemma fround_proper (x y : Q) : (x == y)%Q → (fround x == fround y)%Q.
Proof.
  intros E. apply Qle_antisym; apply fround_le; rewrite E; apply Qle_refl.
Qed.

(** X4. In a successful parse the score is 0 when no rule passed, and 100
    when at least one passed and the passed rules are all the applicable
    ones. *)
Theorem compliance_score_extremes (now : Q) (fs : filesystem) (xml_file : string)
    (h : option string) (r : SCAPResult) :
  parse_results now fs xml_file h = Ok (Some r) →
  (passed_rules r = 0 → (compliance_score r == 0)%Q)
  ∧ (0 < passed_rules r →
     passed_rules r = total_rules r - notapplicable_rules r - notchecked_rules r →
     (compliance_score r == 100)%Q).
Proof.
  intros Hr. pose proof (counters_bounds _ _ _ _ _ Hr) as (Ht & Hp & Hna & Hnc & Hle).
  apply parse_results_Some in Hr as (_ & _ & _ & _ & _ & ->).
  rewrite score_of_formula by done. unfold score_formula, fmul. simpl. split.
  - intros ->. case_decide; [|done].
    set (a := total_rules r - notapplicable_rules r - notchecked_rules r).
    assert (fround (inject_Z 0 / inject_Z a) == 0)%Q as E.
    { transitivity (fround 0); [|apply fround_0].
      apply fround_proper. unfold Qdiv. apply Qmult_0_l. }
    transitivity (fround 0); [|apply fround_0].
    apply fround_proper. rewrite E. apply Qmult_0_l.
  - intros Hpos Heq. rewrite <- Heq. rewrite decide_True by done.
    assert (fround (inject_Z (passed_rules r) / inject_Z (passed_rules r)) == 1)%Q as E.
    { transitivity (fround 1); [|apply fround_1].
      apply fround_proper. apply Qmult_inv_r. unfold Qeq. simpl. lia. }
    transitivity (fround 100); [|apply fround_100].
    apply fround_proper. rewrite E. apply Qmult_1_l.
Qed.

(** X5. The counters do not depend on the order of the rule-results: when
    the loop gets through a list from some counters, it gets through every
    permutation of it, with the same counters and the same detail entries
    in another order. *)
Theorem counters_ignore_order (b : element) (l1 l2 : list element)
    (st st1 : loop_state) :
  l1 ≡ₚ l2 → well_keyed (metrics st) →
  for_each (process_rule_result b) st l1 = Ok st1 →
  ∃ st2, for_each (process_rule_result b) st l2 = Ok st2
         ∧ metrics st2 = metrics st1 ∧ details st2 ≡ₚ details st1.
Proof.
  intros Hperm Hm H1. pose proof (for_each_processable _ _ _ _ H1) as Hall.
  rewrite Hperm in Hall.
  destruct (for_each_progress b l2 st Hm Hall) as (st2 & H2 & _).
  exists st2. split; [done|].
  apply for_each_Ok in H1 as (Em1 & Ed1 & _); [|done].
  apply for_each_Ok in H2 as (Em2 & Ed2 & _); [|done].
  split.
  - rewrite Em1, Em2. apply foldl_bump_permutation. by rewrite Hperm.
  - rewrite Ed1, Ed2. by rewrite Hperm.
Qed.
End ParserMore.

Section ParserEdges.
Context `{PyLib}.

(** X6. The benchmark is looked for below the root only. A document none of
    whose elements below the root is an XCCDF [Benchmark] yields no result,
    also when the root itself is the benchmark. *)
Theorem benchmark_root_is_not_found (now : Q) (fs : filesystem)
    (xml_file : string) (h : option string) (root : element) :
  fs !! xml_file = Some (Ok root) →
  Forall (λ e, tag e ≠ xccdf "Benchmark") (descendants root) →
  parse_results now fs xml_file h = Ok None.
Proof.
  intros Hf Hd.
  unfold parse_results, parse_results_body, ET_parse. rewrite Hf. simpl.
  unfold find_descendant.
  assert (filter (λ c, tag c = xccdf "Benchmark") (descendants root) = []) as ->.
  { induction (descendants root) as [|x l IH]; [done|].
    apply Forall_cons in Hd as [Hx Hl].
    rewrite filter_cons, decide_False by done. by apply IH. }
  done.
Qed.

Lemma resolve_rule_title (d : option element) (rid : string) :
  (resolve_rule d rid).2 = "" → rid = "".
Proof.
  unfold resolve_rule. destruct d as [d|]; simpl; [|done].
  destruct (find d (xccdf "title")) as [t|]; [|done].
  unfold or_else. by destruct (text t) as [[|c s]|].
Qed.

Lemma parse_results_located (now : Q) (fs : filesystem) (xml_file : string)
    (h : option string) (r : SCAPResult) (b : element) (rrs : list element) :
  parse_results now fs xml_file h = Ok (Some r) →
  located fs xml_file b rrs →
  rule_details r = rrs ≫= detail_of b ∧ Forall (processable b) rrs.
Proof.
  intros Hr (root & tr & Er & Eb & Et & ->).
  destruct (parse_results_Some _ _ _ _ _ Hr)
    as (b' & rrs' & (root' & tr' & Er' & Eb' & Et' & ->) & _ & Hd & _).
  rewrite Er in Er'. injection Er' as <-.
  rewrite Eb in Eb'. injection Eb' as <-.
  rewrite Et in Et'. injection Et' as <-.
  split; [done|].
  unfold parse_results, try_except, parse_results_body in Hr.
  rewrite Er in Hr. simpl in Hr. rewrite Eb, Et in Hr.
  destruct (for_each _ _ _) as [st|] eqn:Ef; simpl in Hr; [|done].
  by eapply for_each_processable.
Qed.

(** X7. The details of a returned record are those of the rule-results, in
    order, and the entry of a rule-result has its [idref] as rule id (or
    the empty string), its lower-cased status as result and the resolved
    severity. Its title is the rule id when no rule is found for the id,
    when the rule has no title element, and when that element has no text
    or an empty one; otherwise it is the text of the title element. So a
    title is empty only when the rule id is. *)
Theorem detail_title_falls_back_to_rule_id (now : Q) (fs : filesystem)
    (xml_file : string) (h : option string) (r : SCAPResult)
    (b : element) (rrs : list element) (rr : element) (d : rule_detail) :
  parse_results now fs xml_file h = Ok (Some r) →
  located fs xml_file b rrs →
  rr ∈ rrs → d ∈ detail_of b rr →
  rule_details r = rrs ≫= detail_of b
  ∧ d ∈ rule_details r
  ∧ rule_id d = get rr "idref" ""
  ∧ status_of rr = Some (result d)
  ∧ severity d = severity_of b rr
  ∧ find_rule b (rule_id d) = Ok (rule_def_of b rr)
  ∧ match rule_def_of b rr with
    | None => title d = rule_id d
    | Some rule_def =>
        match find rule_def (xccdf "title") with
        | None => title d = rule_id d
        | Some title_elem =>
            match text title_elem with
            | None | Some "" => title d = rule_id d
            | Some s => title d = s
            end
        end
    end
  ∧ (title d = "" → rule_id d = "").
Proof.
  intros Hr Hloc Hrr Hd.
  destruct (parse_results_located _ _ _ _ _ _ _ Hr Hloc) as [Hdetails Hall].
  rewrite Forall_forall in Hall. specialize (Hall rr Hrr).
  assert (d ∈ rule_details r) as Hin.
  { rewrite Hdetails. apply list_elem_of_bind. by exists rr. }
  unfold detail_of in Hd. destruct (status_of rr) as [s|] eqn:Es;
    [|by apply elem_of_nil in Hd].
  apply list_elem_of_singleton in Hd as ->. simpl.
  assert (find_rule b (get rr "idref" "") = Ok (rule_def_of b rr)) as Hfind.
  { unfold status_of in Es. unfold processable in Hall. unfold rule_def_of.
    destruct (find rr (xccdf "result")) as [e|]; [|done].
    destruct Hall as [_ Hall].
    by destruct (find_rule b (get rr "idref" "")). }
  split_and!; [done.. | | apply resolve_rule_title].
  unfold title_of, resolve_rule.
  destruct (rule_def_of b rr) as [rule_def|]; simpl; [|done].
  destruct (find rule_def (xccdf "title")) as [title_elem|]; [|done].
  by destruct (text title_elem) as [[|c t]|].
Qed.
End ParserEdges.

(** ** Further properties of the scanner and the exporter *)

Section ScannerMore.
Context `{OS}.

(** X8. [scan] returns a path only when the scanner ran to completion with
    a return code of at most 2; the path is the one [mkstemp] created and the
    file system is the one the scanner left. *)
Theorem scan_path_means_completed (self : SCAPScanner.t) (profile : string)
    (content_file target : option string) (fs fs' : filesystem) (p : string) :
  SCAPScanner.scan self profile content_file target fs = (Some p, fs') →
  ∃ fs1 content returncode stderr,
    mkstemp fs = Ok (p, fs1)
    ∧ SCAPScanner.resolve_content self fs1 content_file = Some content
    ∧ subprocess_run (SCAPScanner.build_cmd self profile p target content) fs1
      = (Completed returncode stderr, fs')
    ∧ returncode ≤ 2.
Proof.
  unfold SCAPScanner.scan.
  destruct (mkstemp fs) as [[q fs1]|] eqn:Emk; [|done].
  destruct (SCAPScanner.resolve_content self fs1 content_file) as [content|] eqn:Ec;
    [|done].
  destruct (subprocess_run _ fs1) as [[rc err| |e] fs2] eqn:Erun; [|done..].
  case_decide as Hrc.
  - by destruct (unlink q fs2).
  - intros [= -> ->]. exists fs1, content, rc, err. split_and!; [done..|lia].
Qed.

(** X9. When [scan] fails for want of a content file, or because the
    scanner timed out or could not be run, it removes nothing: the file
    [mkstemp] created stays as the file system has it. *)
Theorem scan_failure_keeps_temp_file (self : SCAPScanner.t) (profile : string)
    (content_file target : option string) (fs fs1 : filesystem) (p : string) :
  mkstemp fs = Ok (p, fs1) →
  (SCAPScanner.resolve_content self fs1 content_file = None →
   SCAPScanner.scan self profile content_file target fs = (None, fs1))
  ∧ (∀ content fs2 res,
       SCAPScanner.resolve_content self fs1 content_file = Some content →
       subprocess_run (SCAPScanner.build_cmd self profile p target content) fs1
       = (res, fs2) →
       (∀ rc err, res ≠ Completed rc err) →
       SCAPScanner.scan self profile content_file target fs = (None, fs2)).
Proof.
  intros Hmk. unfold SCAPScanner.scan. rewrite Hmk. split.
  - by intros ->.
  - intros content fs2 res -> -> Hres. destruct res as [rc err| |e]; [|done..].
    by destruct (Hres rc err).
Qed.
End ScannerMore.


Lemma set_each_union (labels : list string) (es : list (string * Z)) :
  ∃ M : Gauge, ∀ g, set_each labels es g = M ∪ g.
Proof.
  unfold set_each. induction es as [|e es [M IH]]; simpl.
  - exists ∅. intros g. by rewrite (left_id_L ∅ (∪)).
  - exists (M ∪ {[ labels ++ [e.1] := inject_Z e.2 ]}). intros g.
    rewrite IH, insert_union_singleton_l. by rewrite (assoc_L (∪)).
Qed.

Lemma set_each_idemp (labels : list string) (es : list (string * Z)) (g : Gauge) :
  set_each labels es (set_each labels es g) = set_each labels es g.
Proof.
  destruct (set_each_union labels es) as [M HM].
  rewrite !HM, (assoc_L (∪)). by rewrite (idemp_L (∪) M).
Qed.

Lemma labels_child_lookup (k : list string)
    (i : gmap (list string) (list (string * string))) :
  labels_child k i !! k = Some (default [] (i !! k)).
Proof.
  unfold labels_child. destruct (i !! k) eqn:E; simpl; [done|].
  apply lookup_insert_eq.
Qed.


Lemma insert_labels_child (k : list string) (v : list (string * string))
    (i : gmap (list string) (list (string * string))) :
  <[k := v]> (labels_child k i) = <[k := v]> i.
Proof.
  unfold labels_child. destruct (i !! k); [done|]. apply insert_insert_eq.
Qed.

Lemma labels_child_insert (k : list string) (v : list (string * string))
    (i : gmap (list string) (list (string * string))) :
  labels_child k (<[k := v]> i) = <[k := v]> i.
Proof. unfold labels_child. by rewrite lookup_insert_eq. Qed.

Lemma labels_child_idemp (k : list string)
    (i : gmap (list string) (list (string * string))) :
  labels_child k (labels_child k i) = labels_child k i.
Proof. unfold labels_child at 1. by rewrite labels_child_lookup. Qed.

Section ExporterMore.
Context `{PromClient Registry}.
#[local] Arguments set_each : simpl never.

(** X10. After an [update_metrics] that returns, every series of the record
    reads back the record's value: the score, the total, the scan time, the
    seven status counts, the four severity counts and the info labels. *)
Theorem update_metrics_reads_back (e e' : PrometheusExporter.t) (r : SCAPResult) :
  update_metrics e r = (e', Ok ()) →
  let reg := registry e' in
  g_compliance_score reg !! labels_of r = Some (compliance_score r)
  ∧ g_total_rules reg !! labels_of r = Some (inject_Z (total_rules r))
  ∧ g_last_scan_timestamp reg !! labels_of r = Some (scan_time r)
  ∧ g_rules_by_status reg !! (labels_of r ++ ["passed"])
    = Some (inject_Z (passed_rules r))
  ∧ g_rules_by_status reg !! (labels_of r ++ ["failed"])
    = Some (inject_Z (failed_rules r))
  ∧ g_rules_by_status reg !! (labels_of r ++ ["error"])
    = Some (inject_Z (error_rules r))
  ∧ g_rules_by_status reg !! (labels_of r ++ ["unknown"])
    = Some (inject_Z (unknown_rules r))
  ∧ g_rules_by_status reg !! (labels_of r ++ ["notapplicable"])
    = Some (inject_Z (notapplicable_rules r))
  ∧ g_rules_by_status reg !! (labels_of r ++ ["notchecked"])
    = Some (inject_Z (notchecked_rules r))
  ∧ g_rules_by_status reg !! (labels_of r ++ ["informational"])
    = Some (inject_Z (informational_rules r))
  ∧ g_failed_by_severity reg !! (labels_of r ++ ["high"])
    = Some (inject_Z (severity_high_failed r))
  ∧ g_failed_by_severity reg !! (labels_of r ++ ["medium"])
    = Some (inject_Z (severity_medium_failed r))
  ∧ g_failed_by_severity reg !! (labels_of r ++ ["low"])
    = Some (inject_Z (severity_low_failed r))
  ∧ g_failed_by_severity reg !! (labels_of r ++ ["info"])
    = Some (inject_Z (severity_info_failed r))
  ∧ ∃ iso, fromtimestamp_isoformat (scan_time r) = Ok iso
      ∧ i_scan_info reg !! [str (hostname r); profile r]
        = Some [("benchmark_id", benchmark_id r);
                ("benchmark_version", benchmark_version r); ("scan_time", iso)].
Proof.
  unfold update_metrics, labels_of.
  destruct (fromtimestamp_isoformat (scan_time r)) as [iso|]; [|done].
  intros [= <-]. simpl. unfold set_each. simpl.
  split_and!;
    try (repeat first [ apply lookup_insert_eq
                      | rewrite lookup_insert_ne by (intros [=]) ]).
  exists iso. split; [done|]. apply lookup_insert_eq.
Qed.



(** X13. Updating twice with the same record is the same as updating
    once. *)
Theorem update_metrics_idempotent (e : PrometheusExporter.t) (r : SCAPResult) :
  update_metrics (update_metrics e r).1 r = update_metrics e r.
Proof.
  unfold update_metrics.
  destruct (fromtimestamp_isoformat (scan_time r)) as [iso|] eqn:E; simpl;
    rewrite ?E; simpl;
    rewrite ?labels_child_insert, ?labels_child_idemp, !insert_insert_eq,
      !set_each_idemp; done.
Qed.

Lemma update_metrics_latest (e : PrometheusExporter.t) (r : SCAPResult) :
  latest_results (update_metrics e r).1
  = match fromtimestamp_isoformat (scan_time r) with
    | Ok _ => <[result_key r := r]> (latest_results e)
    | Raise _ => latest_results e
    end.
Proof.
  unfold update_metrics. by destruct (fromtimestamp_isoformat (scan_time r)).
Qed.

(** X14. After any sequence of updates that return, the record stored under
    a key is the last one of the sequence with that key, and a key none of
    them has keeps what it had. *)
Theorem latest_results_last_write_wins (e : PrometheusExporter.t)
    (rs : list SCAPResult) (k : string) :
  Forall (λ r, ∃ iso, fromtimestamp_isoformat (scan_time r) = Ok iso) rs →
  latest_results (update_all e rs) !! k
  = match last (filter (λ r, result_key r = k) rs) with
    | Some r => Some r
    | None => latest_results e !! k
    end.
Proof.
  unfold update_all. induction rs as [|r rs IH] using rev_ind; intros Hall; [done|].
  apply Forall_app in Hall as [Hrs Hr]. apply Forall_singleton in Hr as [iso Hiso].
  rewrite foldl_app. simpl. rewrite update_metrics_latest, Hiso.
  rewrite filter_app, filter_cons, filter_nil.
  destruct (decide (result_key r = k)) as [<-|Hne].
  - rewrite last_snoc. apply lookup_insert_eq.
  - rewrite app_nil_r, lookup_insert_ne by done. by apply IH.
Qed.
End ExporterMore.

(** ** The daemon cycle, the loop and the entry points *)

Section CycleMore.
Context `{PyLib} `{OS} `{PromClient Registry}.

Lemma parse_results_returns (now : Q) (fs : filesystem) (xml_file : string)
    (h : option string) :
  ∃ o, parse_results now fs xml_file h = Ok o.
Proof.
  unfold parse_results, try_except.
  destruct (parse_results_body now fs xml_file h); by eexists.
Qed.

(** X15. Once [scan] has handed over a results file that exists,
    [scan_and_update] removes it, whatever parsing and updating do. *)
Theorem scan_and_update_removes_results_file (now : Q) (d : SCAPExporterDaemon.t)
    (profile : string) (content_file : option string) (fs fs1 : filesystem)
    (p : string) :
  SCAPScanner.scan (SCAPExporterDaemon.scanner d) profile content_file None fs
  = (Some p, fs1) →
  p ≠ "" → is_Some (fs1 !! p) →
  (SCAPExporterDaemon.scan_and_update now d profile content_file fs).2
  = delete p fs1.
Proof.
  intros Hscan Hp [file Hfile]. unfold SCAPExporterDaemon.scan_and_update.
  rewrite Hscan. destruct p as [|c p]; [done|].
  destruct (parse_results_returns now fs1 (String c p)
              (Some (default nodename (SCAPExporterDaemon.config_hostname d))))
    as [o ->].
  unfold unlink. rewrite Hfile. by destruct o.
Qed.

(** X16. A cycle never changes the configured hostname or the scanner, and
    it changes the exporter only by one [update_metrics] with the record
    parsed from this cycle's results file. *)
Theorem scan_and_update_changes_only_by_record (now : Q)
    (d : SCAPExporterDaemon.t) (profile : string) (content_file : option string)
    (fs : filesystem) :
  let d' := (SCAPExporterDaemon.scan_and_update now d profile content_file fs).1 in
  SCAPExporterDaemon.config_hostname d' = SCAPExporterDaemon.config_hostname d
  ∧ SCAPExporterDaemon.scanner d' = SCAPExporterDaemon.scanner d
  ∧ (SCAPExporterDaemon.exporter d' = SCAPExporterDaemon.exporter d
     ∨ ∃ p fs1 r,
         SCAPScanner.scan (SCAPExporterDaemon.scanner d) profile content_file None fs
         = (Some p, fs1)
         ∧ parse_results now fs1 p
             (Some (default nodename (SCAPExporterDaemon.config_hostname d)))
           = Ok (Some r)
         ∧ SCAPExporterDaemon.exporter d'
           = (update_metrics (SCAPExporterDaemon.exporter d) r).1).
Proof.
  unfold SCAPExporterDaemon.scan_and_update.
  destruct (SCAPScanner.scan _ _ _ _ _) as [[[|c p]|] fs1] eqn:Hscan; simpl;
    [by split_and!; [..|left] | | by split_and!; [..|left]].
  destruct (parse_results now fs1 (String c p) _) as [[r|]|] eqn:Hparse; simpl;
    destruct (unlink (String c p) fs1); simpl;
    try (by split_and!; [..|left]).
  split_and!; [done..|]. right. by exists (String c p), fs1, r.
Qed.

(** X17. A cycle whose scanner exits with a code of at most 2 and writes a
    document that parses publishes the record: it is stored under its key,
    [/results] shows it, and the results file is removed. *)
Theorem scan_and_update_publishes_record (now : Q) (d : SCAPExporterDaemon.t)
    (profile : string) (content_file : option string) (fs fs1 fs2 : filesystem)
    (p content stderr iso : string) (returncode : Z) (r : SCAPResult) :
  mkstemp fs = Ok (p, fs1) → p ≠ "" →
  SCAPScanner.resolve_content (SCAPExporterDaemon.scanner d) fs1 content_file
  = Some content →
  subprocess_run
    (SCAPScanner.build_cmd (SCAPExporterDaemon.scanner d) profile p None content) fs1
  = (Completed returncode stderr, fs2) →
  returncode ≤ 2 →
  parse_results now fs2 p
    (Some (default nodename (SCAPExporterDaemon.config_hostname d)))
  = Ok (Some r) →
  fromtimestamp_isoformat (scan_time r) = Ok iso →
  let out := SCAPExporterDaemon.scan_and_update now d profile content_file fs in
  latest_results (SCAPExporterDaemon.exporter out.1) !! result_key r = Some r
  ∧ payload (MetricsHTTPHandler.do_GET (SCAPExporterDaemon.exporter out.1) "/results")
    = ResultsPayload (<[result_key r := r]>
                        (latest_results (SCAPExporterDaemon.exporter d)))
  ∧ out.2 = delete p fs2.
Proof.
  intros Hmk Hp Hc Hrun Hrc Hparse Hiso.
  unfold SCAPExporterDaemon.scan_and_update, SCAPScanner.scan.
  rewrite Hmk, Hc, Hrun, decide_False by lia.
  destruct p as [|c p]; [done|]. rewrite Hparse.
  assert (is_Some (fs2 !! String c p)) as [file Hfile].
  { unfold parse_results, try_except, parse_results_body, ET_parse in Hparse.
    destruct (fs2 !! String c p); [by eexists | done]. }
  unfold unlink. rewrite Hfile. simpl.
  unfold update_metrics. rewrite Hiso. simpl.
  split_and!; [apply lookup_insert_eq | done | done].
Qed.
End CycleMore.

Section LoopMore.
Context `{PyLib} `{OS} `{PromClient Registry} `{Time}.

Lemma time_sleep_Ok (n : nat) (s : Z) :
  time_sleep n s = Ok () → 0 ≤ s ≤ 9223372036.
Proof.
  intros E.
  destruct (decide (s * 1000000000 < -9223372036854775808
                    ∨ 9223372036854775807 < s * 1000000000)) as [Ho|Ho].
  - by rewrite (time_sleep_overflow n s Ho) in E.
  - destruct (decide (s < 0)) as [Hn|Hn]; [|lia].
    rewrite (time_sleep_negative n s) in E by lia. done.
Qed.

Lemma scan_entry_step_skip (clock : nat → Q) (st : Daemon.loop)
    (sc : Config.scan_entry) :
  ¬ profiled sc → Daemon.scan_entry_step clock st sc = Ok st.
Proof.
  unfold profiled, Daemon.scan_entry_step. by destruct (truthy (Config.profile sc)).
Qed.

Lemma scan_entry_step_Ok (clock : nat → Q) (st st' : Daemon.loop)
    (sc : Config.scan_entry) :
  profiled sc → Daemon.scan_entry_step clock st sc = Ok st' →
  (Daemon.daemon st', Daemon.files st')
  = SCAPExporterDaemon.scan_and_update (clock (Daemon.scans_done st))
      (Daemon.daemon st) (or_else (Config.profile sc) "") (Config.content_file sc)
      (Daemon.files st)
  ∧ Daemon.sleeps st' = Daemon.sleeps st ++ [default 3600 (Config.interval sc)]
  ∧ 0 ≤ default 3600 (Config.interval sc) ≤ 9223372036
  ∧ Daemon.scans_done st' = S (Daemon.scans_done st).
Proof.
  unfold profiled, Daemon.scan_entry_step. intros ->.
  destruct (SCAPExporterDaemon.scan_and_update _ _ _ _ _) as [d fs].
  unfold Daemon.sleep. simpl.
  destruct (time_sleep _ _) as [[]|] eqn:E; simpl; [|done].
  intros [= <-]. simpl. apply time_sleep_Ok in E. done.
Qed.


Lemma length_schedule (scans : list Config.scan_entry) :
  length (schedule scans) = length (filter profiled scans).
Proof. unfold schedule. apply length_fmap. Qed.

Lemma cycles_app (clock : nat → Q) (l1 l2 : list Config.scan_entry) (n : nat)
    (d : SCAPExporterDaemon.t) (fs : filesystem) :
  cycles clock n (l1 ++ l2) d fs
  = cycles clock (n + length l1) l2 (cycles clock n l1 d fs).1
      (cycles clock n l1 d fs).2.
Proof.
  revert n d fs. induction l1 as [|sc l1 IH]; intros n d fs; simpl.
  - by rewrite Nat.add_0_r.
  - destruct (SCAPExporterDaemon.scan_and_update _ _ _ _ _) as [d1 fs1].
    rewrite IH. by rewrite Nat.add_succ_r.
Qed.

Lemma pass_Ok (clock : nat → Q) (scans : list Config.scan_entry)
    (st st' : Daemon.loop) :
  for_each (Daemon.scan_entry_step clock) st scans = Ok st' →
  (Daemon.daemon st', Daemon.files st')
  = cycles clock (Daemon.scans_done st) (filter profiled scans)
      (Daemon.daemon st) (Daemon.files st)
  ∧ Daemon.sleeps st' = Daemon.sleeps st ++ schedule scans
  ∧ Forall (λ s, 0 ≤ s ≤ 9223372036) (schedule scans)
  ∧ Daemon.scans_done st' = (Daemon.scans_done st + length (schedule scans))%nat.
Proof.
  unfold schedule. revert st.
  induction scans as [|sc scans IH]; intros st; simpl.
  - intros [= <-]. rewrite app_nil_r. split_and!; [done | done | constructor | lia].
  - destruct (Daemon.scan_entry_step clock st sc) as [st1|] eqn:E1; simpl; [|done].
    intros (Hc & Hs & Hall & Hn)%IH. rewrite filter_cons.
    destruct (decide (profiled sc)) as [Hp|Hp].
    + apply scan_entry_step_Ok in E1 as (Hc1 & Hs1 & Hpos & Hn1); [|done].
      rewrite fmap_cons. simpl. rewrite <- Hc1, Hc, Hs, Hs1, Hn, Hn1, <- app_assoc.
      split_and!; [done | done | by constructor | lia].
    + rewrite scan_entry_step_skip in E1 by done. by injection E1 as <-.
Qed.

(** X18. When [passes] rounds of the loop complete, the daemon and the file
    system are what the cycles of the entries with a profile make of them:
    one [scan_and_update] for each such entry with its own profile and
    content file, in the order of the list, round after round. The sleeps
    taken are the intervals of those entries, 3600 by default, in the same
    order, and each is one [time.sleep] accepts. *)
Theorem scan_loop_schedule (clock : nat → Q) (passes : nat)
    (scans : list Config.scan_entry) (st st' : Daemon.loop) :
  Daemon.scan_loop clock passes scans st = Ok st' →
  (Daemon.daemon st', Daemon.files st')
  = cycles clock (Daemon.scans_done st)
      (concat (replicate passes (filter profiled scans)))
      (Daemon.daemon st) (Daemon.files st)
  ∧ Daemon.sleeps st'
    = Daemon.sleeps st ++ concat (replicate passes (schedule scans))
  ∧ Daemon.scans_done st'
    = (Daemon.scans_done st + passes * length (schedule scans))%nat
  ∧ (passes ≠ 0%nat → Forall (λ s, 0 ≤ s ≤ 9223372036) (schedule scans)).
Proof.
  revert st. induction passes as [|n IH]; intros st; simpl.
  - intros [= <-]. rewrite app_nil_r. split_and!; [done | done | lia | done].
  - destruct (for_each _ st scans) as [st1|] eqn:E1; simpl; [|done].
    apply pass_Ok in E1 as (Hc1 & Hs1 & Hall & Hn1).
    intros (Hc & Hs & Hn & _)%IH.
    rewrite cycles_app, <- Hc1. simpl.
    rewrite <- length_schedule, <- Hn1, Hc, Hs, Hs1, Hn, Hn1, <- app_assoc.
    split_and!; [done | done | lia | done].
Qed.

Lemma pass_skips (clock : nat → Q) (scans : list Config.scan_entry)
    (st : Daemon.loop) :
  for_each (Daemon.scan_entry_step clock) st scans
  = for_each (Daemon.scan_entry_step clock) st (filter profiled scans).
Proof.
  revert st. induction scans as [|sc scans IH]; intros st; [done|].
  rewrite filter_cons. destruct (decide (profiled sc)) as [Hp|Hp]; simpl.
  - destruct (Daemon.scan_entry_step clock st sc); simpl; [apply IH | done].
  - rewrite scan_entry_step_skip by done. simpl. apply IH.
Qed.

(** X19. Entries without a profile, or with an empty one, are skipped
    without a scan and without a sleep. When no entry has a profile, any
    number of rounds leaves the state as it is. *)
Theorem scan_loop_skips_entries_without_profile (clock : nat → Q) (passes : nat)
    (scans : list Config.scan_entry) (st : Daemon.loop) :
  Daemon.scan_loop clock passes scans st
  = Daemon.scan_loop clock passes (filter profiled scans) st
  ∧ (filter profiled scans = [] → Daemon.scan_loop clock passes scans st = Ok st).
Proof.
  assert (∀ st, Daemon.scan_loop clock passes scans st
                = Daemon.scan_loop clock passes (filter profiled scans) st) as Heq.
  { clear st. induction passes as [|n IH]; intros st; simpl; [done|].
    rewrite pass_skips.
    destruct (for_each _ st (filter profiled scans)); simpl; [apply IH | done]. }
  split; [apply Heq|]. intros Hnone. rewrite Heq, Hnone.
  clear Heq. induction passes as [|n IH]; simpl; [done | apply IH].
Qed.




End LoopMore.

Section EntryPoints.
Context `{PyLib} `{OS} `{PromClient Registry} `{Yaml} `{Time}.


(** X22. With [--scan-once] and no [--profile], an empty [scans] list makes
    [main] end with an uncaught [IndexError], while a missing [scans] key
    makes it return without scanning. *)
Theorem main_scan_once_empty_scans (clock : nat → Q) (passes : nat)
    (a : Main.args) (fs : filesystem) (c : Config.t) :
  truthy (Main.results_file a) = false →
  Main.scan_once a = true →
  truthy (Main.profile a) = false →
  load_file (Main.config a) = Ok (YamlMapping c) →
  (Config.scans c = Some [] → Main.main clock passes a fs = Main.UncaughtIndexError)
  ∧ (Config.scans c = None →
     Main.main clock passes a fs = Main.Returns (Main.Result [] fs)).
Proof.
  intros Hrf Hso Hp Hload. unfold Main.main, Daemon.init, Daemon._load_config.
  rewrite Hrf, Hload. simpl. rewrite Hso, Hp. split; by intros ->.
Qed.

(** X23. With [--scan-once] and a profile, [main] returns and prints one
    exposition whatever the scan did, as long as the configuration is no
    non-mapping value and the encoder returns. *)
Theorem main_scan_once_always_prints (clock : nat → Q) (passes : nat)
    (a : Main.args) (fs : filesystem) :
  truthy (Main.results_file a) = false →
  Main.scan_once a = true →
  truthy (Main.profile a) = true →
  load_file (Main.config a) ≠ Ok YamlOther →
  (∀ reg, ∃ text, generate_latest reg = Ok text) →
  ∃ d text,
    Daemon.init (Main.config a) = Ok d
    ∧ generate_latest
        (registry (SCAPExporterDaemon.exporter
           (SCAPExporterDaemon.scan_and_update (clock 0%nat) (Daemon.core d)
              (or_else (Main.profile a) "") (Main.content_file a) fs).1))
      = Ok text
    ∧ Main.main clock passes a fs
      = Main.Returns
          (Main.Result [text]
             (SCAPExporterDaemon.scan_and_update (clock 0%nat) (Daemon.core d)
                (or_else (Main.profile a) "") (Main.content_file a) fs).2).
Proof.
  intros Hrf Hso Hp Hload Hgen. unfold Main.main. rewrite Hrf.
  assert (∃ d, Daemon.init (Main.config a) = Ok d) as [d Hd].
  { unfold Daemon.init, Daemon._load_config.
    destruct (load_file (Main.config a)) as [[c|]|]; [by eexists | done | by eexists]. }
  exists d.
  destruct (SCAPExporterDaemon.scan_and_update (clock 0%nat) (Daemon.core d)
              (or_else (Main.profile a) "") (Main.content_file a) fs)
    as [d' fs'] eqn:Ecycle.
  destruct (Hgen (registry (SCAPExporterDaemon.exporter d'))) as [text Htext].
  exists text. split_and!; [done | exact Htext |].
  rewrite Hd. simpl. rewrite Hso, Hp. simpl. rewrite Hp, Ecycle. simpl.
  by rewrite Htext.
Qed.

(** X24. With [--results-file], a [main] that returns has left the file
    system alone; it has printed nothing exactly when the parse failed, and
    otherwise the exposition of a new exporter updated with the record. *)
Theorem main_results_file_mode (clock : nat → Q) (passes : nat)
    (a : Main.args) (fs : filesystem) (out : Main.result) :
  truthy (Main.results_file a) = true →
  Main.main clock passes a fs = Main.Returns out →
  Main.files out = fs
  ∧ (Main.stdout out = []
     ↔ parse_results (clock 0%nat) fs (or_else (Main.results_file a) "") None
       = Ok None)
  ∧ (∀ r, parse_results (clock 0%nat) fs (or_else (Main.results_file a) "") None
          = Ok (Some r) →
          ∃ text, Main.stdout out = [text]
            ∧ generate_latest
                (registry (update_metrics PrometheusExporter.init r).1) = Ok text).
Proof.
  intros Hrf. unfold Main.main. rewrite Hrf.
  destruct (parse_results _ _ _ _) as [[r|]|]; simpl; [| |done].
  - destruct (update_metrics PrometheusExporter.init r) as [e [[]|]] eqn:Eu;
      simpl; [|done].
    destruct (generate_latest (registry e)) as [text|] eqn:Et; simpl; [|done].
    intros [= <-]. simpl. split; [done|]. split; [by split|].
    intros r' [= <-]. exists text. by rewrite Eu.
  - intros [= <-]. simpl. split; [done|]. split; [by split|]. by intros r' [=].
Qed.
End EntryPoints.

Section Server.
Context `{PyLib} `{PromClient Registry}.

(** X25. [main] of [metrics_server.py] goes on to serve only after a
    successful parse and update: the exporter then holds exactly that record
    and no request is answered 503. When the parse fails it stops with the
    exporter set and no record. *)
Theorem metrics_server_serves_after_update (now : Q) (fs : filesystem)
    (s : MetricsServer.state) :
  MetricsServer.main now fs = Ok s →
  (MetricsServer.serving s = true →
   ∃ r e, parse_results now fs "sample_scap_results.xml" None = Ok (Some r)
     ∧ MetricsServer.exporter s = Some e
     ∧ latest_results e = {[ result_key r := r ]}
     ∧ ∀ path, status (MetricsHandler.do_GET (MetricsServer.exporter s) path) ≠ 503)
  ∧ (MetricsServer.serving s = false →
     parse_results now fs "sample_scap_results.xml" None = Ok None
     ∧ MetricsServer.exporter s = Some PrometheusExporter.init).
Proof.
  unfold MetricsServer.main.
  destruct (parse_results now fs "sample_scap_results.xml" None) as [[r|]|];
    simpl; [| |done].
  - destruct (update_metrics PrometheusExporter.init r) as [e [[]|]] eqn:Eu;
      simpl; [|done].
    intros [= <-]. simpl. split; [|done]. intros _. exists r, e.
    split_and!; [done | done | |].
    + unfold update_metrics in Eu.
      destruct (fromtimestamp_isoformat (scan_time r)); [|done].
      injection Eu as <-. simpl. by rewrite insert_empty.
    + intros path. unfold MetricsHandler.do_GET.
      repeat case_decide; try done. by destruct (generate_latest (registry e)).
  - intros [= <-]. simpl. split; [done|]. by intros _.
Qed.
End Server.

Import Reference Samples.

(** ** Concrete runs *)

(** The sample document of the test suite: five rule-results, all bucketed. *)
Lemma total_is_buckets_plus_unbucketed_witness :
  ∃ r, parse_results 0 (one_file "results.xml" sample_scap_results) "results.xml"
         (Some "test-server") = Ok (Some r)
       ∧ ∃ b rrs, located (one_file "results.xml" sample_scap_results) "results.xml" b rrs
           ∧ total_rules r = Z.of_nat (length rrs)
           ∧ total_rules r = status_total r + number_of unbucketed rrs
           ∧ status_total r ≤ total_rules r.
Proof.
  eexists. split; [reflexivity|].
  apply (total_is_buckets_plus_unbucketed 0 _ _ (Some "test-server")).
  reflexivity.
Defined.

(** One rule-result with status notselected: the total is 1, the buckets
    hold nothing. *)
Lemma total_exceeds_buckets_notselected :
  ∃ r, parse_results 0 (one_file "results.xml" doc_notselected) "results.xml" None
       = Ok (Some r)
       ∧ total_rules r = 1 ∧ status_total r = 0
       ∧ total_rules r ≠ status_total r.
Proof. eexists. split; [reflexivity|]. by split_and!. Qed.

(** The sample document scores 1 / (5 - 1 - 0) * 100 = 25; a document
    without rule-results parses, with score 0. *)
Lemma compliance_score_formula_witness :
  (∃ r, parse_results 0 (one_file "results.xml" sample_scap_results) "results.xml"
          (Some "test-server") = Ok (Some r)
        ∧ compliance_score r = (100 # 4)%Q
        ∧ compliance_score r = score_formula r
        ∧ (0 <= compliance_score r)%Q ∧ (compliance_score r <= 100)%Q)
  ∧ (∃ r, parse_results 0 (one_file "results.xml" doc_no_rule_results) "results.xml"
            None = Ok (Some r)
          ∧ total_rules r = 0 ∧ compliance_score r = 0%Q).
Proof.
  split.
  - eexists. split; [reflexivity|]. split; [reflexivity|].
    apply (compliance_score_formula 0 (one_file "results.xml" sample_scap_results)
             "results.xml" (Some "test-server")).
    reflexivity.
  - eapply (compliance_score_formula 0 (one_file "results.xml" doc_no_rule_results)
              "results.xml" None).
    eexists _, _. split_and!; reflexivity.
Defined.

(** The sample document: two failed rules, one high and one low. *)
Lemma severity_buckets_within_failed_witness :
  ∃ r, parse_results 0 (one_file "results.xml" sample_scap_results) "results.xml"
         (Some "test-server") = Ok (Some r)
       ∧ failed_rules r = 2 ∧ severity_total r = 2
       ∧ severity_total r ≤ failed_rules r.
Proof.
  eexists. split; [reflexivity|]. split; [reflexivity|]. split; [reflexivity|].
  apply (severity_buckets_within_failed 0
           (one_file "results.xml" sample_scap_results) "results.xml"
           (Some "test-server")).
  reflexivity.
Defined.

(** The status notselected is no keyword, and its rule-result still gets its
    detail entry. *)
Lemma unknown_status_detail_appended :
  ¬ known_status "notselected"
  ∧ ∃ r, parse_results 0 (one_file "results.xml" doc_notselected) "results.xml" None
         = Ok (Some r)
         ∧ rule_details r = [RuleDetail "r1" "Rule one" "notselected" "high"].
Proof.
  split.
  - intros [k Hk]. vm_compute in Hk. discriminate.
  - eexists. split; reflexivity.
Qed.

(** The same rule-result, as one iteration from the initial counters. *)
Lemma unknown_status_iteration_witness :
  initial_metrics !! "total_rules" = Some 0
  ∧ process_rule_result (benchmark_ref [rule "r1" "high" "Rule one"])
      (LoopState initial_metrics []) (rule_result "r1" "notselected")
    = Ok (LoopState (<["total_rules" := 1]> initial_metrics)
            [RuleDetail "r1" "Rule one" "notselected" "high"]).
Proof.
  split; [reflexivity|].
  destruct (unknown_status_iteration (benchmark_ref [rule "r1" "high" "Rule one"])
              (LoopState initial_metrics []) (rule_result "r1" "notselected") 0)
    as [_ Hstep]; [reflexivity|].
  rewrite (Hstep (node "result" [] (Some "notselected") []) "notselected"
             (Some (rule "r1" "high" "Rule one"))).
  - reflexivity.
  - reflexivity.
  - reflexivity.
  - intros [k Hk]. vm_compute in Hk. discriminate.
  - reflexivity.
Defined.

(** A new exporter, never updated: both handlers answer [/metrics] with 200,
    as [test_http_server] expects. *)
Lemma metrics_before_any_update_is_200 :
  latest_results PrometheusExporter.init = ∅
  ∧ status (MetricsHTTPHandler.do_GET PrometheusExporter.init "/metrics") = 200
  ∧ status (MetricsHandler.do_GET (Some PrometheusExporter.init) "/metrics") = 200
  ∧ status (MetricsHTTPHandler.do_GET PrometheusExporter.init "/metrics") ≠ 503.
Proof. split_and!; [reflexivity | reflexivity | reflexivity | done]. Qed.

(** The answers for a new exporter, for no exporter, and for a new exporter
    when the encoder raises. *)
Lemma metrics_endpoint_status_witness :
  MetricsHTTPHandler.do_GET PrometheusExporter.init "/metrics"
  = Response 200 "text/plain; charset=utf-8" (Exposition families)
  ∧ MetricsHandler.do_GET (Some PrometheusExporter.init) "/metrics"
    = Response 200 "text/plain; charset=utf-8" (Exposition families)
  ∧ status (MetricsHandler.do_GET None "/metrics") = 503
  ∧ MetricsHTTPHandler.do_GET (H := client_encoder_raises)
      PrometheusExporter.init "/metrics"
    = Response 500 "text/html;charset=utf-8" ErrorPage
  ∧ status (MetricsHandler.do_GET (H := client_encoder_raises)
              (Some PrometheusExporter.init) "/metrics") = 500.
Proof.
  destruct (metrics_endpoint_status PrometheusExporter.init)
    as (_ & Hok & _ & Hunset).
  destruct (Hok families) as [H1 H2]; [reflexivity|].
  destruct (metrics_endpoint_status (H1 := client_encoder_raises)
              PrometheusExporter.init) as (_ & _ & Hraise & _).
  destruct (Hraise ValueError) as (H3 & _ & _ & H4); [reflexivity|].
  split_and!; [exact H1 | exact H2 | by apply Hunset | exact H3 | exact H4].
Defined.

(** Exit code 1 keeps the results file; exit code 3 removes it and the
    cycle leaves the exporter untouched. *)
Lemma scan_exit_code_witness :
  SCAPScanner.scan (H := host 1) scanner "cis" None None ∅
  = (Some temp_path, {[ temp_path := Ok sample_scap_results ]})
  ∧ (SCAPScanner.scan (H := host 3) scanner "cis" None None ∅).1 = None
  ∧ (SCAPScanner.scan (H := host 3) scanner "cis" None None ∅).2 !! temp_path = None
  ∧ SCAPExporterDaemon.exporter
      (SCAPExporterDaemon.scan_and_update (H0 := host 3) 0 daemon "cis" None ∅).1
    = PrometheusExporter.init.
Proof.
  split.
  - destruct (scan_exit_code (H0 := host 1) scanner "cis" None None ∅
                {[ temp_path := Raise ParseError ]}
                {[ temp_path := Ok sample_scap_results ]}
                temp_path "/usr/share/xml/scap/ssg/content/ssg-debian12-ds.xml" "" 1)
      as [Hle _]; [reflexivity..|].
    apply Hle. lia.
  - destruct (scan_exit_code (H0 := host 3) scanner "cis" None None ∅
                {[ temp_path := Raise ParseError ]}
                {[ temp_path := Ok sample_scap_results ]}
                temp_path "/usr/share/xml/scap/ssg/content/ssg-debian12-ds.xml" "" 3)
      as [_ Hgt]; [reflexivity..|].
    destruct Hgt as (Hnone & Hgone & Hcycle); [lia|].
    split_and!; [exact Hnone | exact Hgone |].
    apply (Hcycle 0%Q daemon); reflexivity.
Defined.

(** A test result with a rule-result and no benchmark. *)
Lemma no_benchmark_no_result_witness :
  one_file "results.xml" doc_no_benchmark !! "results.xml" = Some (Ok doc_no_benchmark)
  ∧ tag doc_no_benchmark = xccdf "TestResult"
  ∧ parse_results 0 (one_file "results.xml" doc_no_benchmark) "results.xml" None
    = Ok None.
Proof.
  split; [reflexivity|]. split; [reflexivity|].
  apply (no_benchmark_no_result 0 _ _ None doc_no_benchmark); [reflexivity|].
  apply (bool_decide_unpack _). reflexivity.
Defined.

(** A document without start time, parsed at clock readings 0 and 1. *)
Lemma reparse_same_but_scan_time_witness :
  ∃ r1 r2,
    parse_results 0 (one_file "results.xml" doc_notselected) "results.xml" None
    = Ok (Some r1)
    ∧ parse_results 1 (one_file "results.xml" doc_notselected) "results.xml" None
      = Ok (Some r2)
    ∧ r2 = set_scan_time (scan_time r2) r1.
Proof.
  pose proof (reparse_same_but_scan_time 0 1
                (one_file "results.xml" doc_notselected) "results.xml" None) as Hre.
  destruct (parse_results 0 _ _ _) as [[r1|]|] eqn:E1;
    [|vm_compute in E1; discriminate E1..].
  destruct (parse_results 1 _ _ _) as [[r2|]|] eqn:E2;
    [|vm_compute in E2; discriminate E2..].
  exists r1, r2. split_and!; [reflexivity | reflexivity | exact (proj1 Hre)].
Defined.

(** The two updates, from a new exporter: one entry is left. *)
Lemma result_key_collision_witness :
  result_key (record_for "a_b" "c") = result_key (record_for "a" "b_c")
  ∧ latest_results
      (update_metrics (update_metrics PrometheusExporter.init (record_for "a_b" "c")).1
         (record_for "a" "b_c")).1
    = {[ "a_b_c" := record_for "a" "b_c" ]}.
Proof.
  destruct (result_key_collision PrometheusExporter.init
              (update_metrics PrometheusExporter.init (record_for "a_b" "c")).1
              (record_for "a_b" "c")) as [_ Hcollide]; [reflexivity|].
  destruct (Hcollide
              (update_metrics
                 (update_metrics PrometheusExporter.init (record_for "a_b" "c")).1
                 (record_for "a" "b_c")).1
              (record_for "a" "b_c"))
    as (_ & K & _ & _ & Hlatest & _); [reflexivity..|].
  split; [exact K | exact Hlatest].
Defined.

(** An empty result element between a passed and a failed rule. *)
Lemma empty_result_aborts_parse_witness :
  parse_results 0 (one_file "results.xml" doc_empty_result) "results.xml" None
  = Ok None.
Proof.
  destruct (empty_result_aborts_parse 0 (one_file "results.xml" doc_empty_result)
              "results.xml" None) as [_ Habort].
  apply (Habort doc_empty_result doc_empty_result
           (node "rule-result" [("idref", "r1")] None [node "result" [] None []])
           (node "result" [] None [])).
  - reflexivity.
  - reflexivity.
  - apply list_elem_of_lookup. exists 1%nat. reflexivity.
  - reflexivity.
  - reflexivity.
Defined.

Import SamplesMore.

(** ** Further concrete runs *)

(** The document with one rule-result parses: its rule-result is one the
    loop gets through. *)
Lemma parse_results_succeeds_iff_witness :
  ∃ r, parse_results 0 (one_file "results.xml" doc_notselected) "results.xml" None
       = Ok (Some r).
Proof.
  apply (parse_results_succeeds_iff 0 (one_file "results.xml" doc_notselected)
           "results.xml" None).
  eexists _, _. split.
  - eexists _, _. split_and!; reflexivity.
  - apply Forall_singleton. split; [by eexists | exact I].
Defined.

(** The sample document: five entries for five rule-results. *)
Lemma rule_details_in_document_order_witness :
  parse_results 0 (one_file "results.xml" sample_scap_results) "results.xml"
    (Some "test-server") = Ok (Some sample_record)
  ∧ ∃ b rrs, located (one_file "results.xml" sample_scap_results) "results.xml" b rrs
      ∧ rule_details sample_record = rrs ≫= detail_of b
      ∧ Z.of_nat (length (rule_details sample_record)) = number_of has_status rrs
      ∧ Z.of_nat (length (rule_details sample_record)) ≤ total_rules sample_record.
Proof.
  split; [reflexivity|].
  apply (rule_details_in_document_order 0 _ _ (Some "test-server")). reflexivity.
Defined.

(** A document with target host1: the callers a and b get the same answer. *)
Lemma hostname_precedence_witness :
  parse_results 0 (one_file "results.xml" doc_notselected) "results.xml" (Some "a")
  = parse_results 0 (one_file "results.xml" doc_notselected) "results.xml" (Some "b").
Proof.
  destruct (hostname_precedence 0 (one_file "results.xml" doc_notselected)
              "results.xml" doc_notselected doc_notselected) as [Htarget _];
    [reflexivity | reflexivity |].
  apply (Htarget (node "target" [] (Some "host1") [])); reflexivity.
Defined.

(** No rule passed in the document with status notselected. *)
Lemma compliance_score_extremes_witness :
  ∃ r, parse_results 0 (one_file "results.xml" doc_notselected) "results.xml" None
       = Ok (Some r)
       ∧ passed_rules r = 0 ∧ (compliance_score r == 0)%Q.
Proof.
  eexists. split; [reflexivity|]. split; [reflexivity|].
  apply (compliance_score_extremes 0 (one_file "results.xml" doc_notselected)
           "results.xml" None); reflexivity.
Defined.

(** A passed and a failed rule-result, in both orders. *)
Lemma counters_ignore_order_witness :
  ∃ st1 st2,
    for_each (process_rule_result (benchmark_ref [rule "r1" "high" "Rule one"]))
      (LoopState initial_metrics []) two_rule_results = Ok st1
    ∧ for_each (process_rule_result (benchmark_ref [rule "r1" "high" "Rule one"]))
        (LoopState initial_metrics []) (reverse two_rule_results) = Ok st2
    ∧ metrics st2 = metrics st1.
Proof.
  assert (∃ st1,
            for_each (process_rule_result (benchmark_ref [rule "r1" "high" "Rule one"]))
              (LoopState initial_metrics []) two_rule_results = Ok st1) as [st1 H1]
    by (eexists; reflexivity).
  destruct (counters_ignore_order (benchmark_ref [rule "r1" "high" "Rule one"])
              two_rule_results (reverse two_rule_results)
              (LoopState initial_metrics []) st1 (perm_swap _ _ []) eq_refl H1)
    as (st2 & H2 & Hm & _).
  exists st1, st2. split_and!; [exact H1 | exact H2 | exact Hm].
Defined.

(** The benchmark as root, the test result below it. *)
Lemma benchmark_root_is_not_found_witness :
  tag doc_benchmark_root = xccdf "Benchmark"
  ∧ parse_results 0 (one_file "results.xml" doc_benchmark_root) "results.xml" None
    = Ok None.
Proof.
  split; [reflexivity|].
  apply (benchmark_root_is_not_found 0 _ _ None doc_benchmark_root); [reflexivity|].
  apply (bool_decide_unpack _). reflexivity.
Defined.

(** A failed rule-result for a rule the benchmark does not have: the
    entry's title is the rule id. *)
Lemma detail_title_falls_back_to_rule_id_witness :
  ∃ r, parse_results 0 (one_file "results.xml" doc_unmatched_rule) "results.xml" None
       = Ok (Some r)
    ∧ RuleDetail "r9" "r9" "fail" "unknown" ∈ rule_details r
    ∧ find_rule small_benchmark "r9" = Ok None.
Proof.
  assert (∃ r, parse_results 0 (one_file "results.xml" doc_unmatched_rule)
                 "results.xml" None = Ok (Some r)) as [r Hr]
    by (eexists; reflexivity).
  exists r. split; [exact Hr|].
  destruct (detail_title_falls_back_to_rule_id 0
              (one_file "results.xml" doc_unmatched_rule) "results.xml" None r
              small_benchmark [rule_result "r9" "fail"] (rule_result "r9" "fail")
              (RuleDetail "r9" "r9" "fail" "unknown") Hr)
    as (_ & Hin & _ & _ & _ & Hfind & _).
  - eexists _, _. split_and!; reflexivity.
  - apply list_elem_of_here.
  - apply list_elem_of_here.
  - split; [exact Hin | exact Hfind].
Defined.

(** Exit code 1: the path returned is the one of a completed scan. *)
Lemma scan_path_means_completed_witness :
  ∃ fs1 content returncode stderr,
    mkstemp (OS := host 1) ∅ = Ok (temp_path, fs1)
    ∧ SCAPScanner.resolve_content (H := host 1) scanner fs1 None = Some content
    ∧ subprocess_run (OS := host 1)
        (SCAPScanner.build_cmd scanner "cis" temp_path None content) fs1
      = (Completed returncode stderr, {[ temp_path := Ok sample_scap_results ]})
    ∧ returncode ≤ 2.
Proof.
  apply (scan_path_means_completed (H := host 1) scanner "cis" None None ∅).
  reflexivity.
Defined.

(** An empty content directory: the new results file is left behind. *)
Lemma scan_failure_keeps_temp_file_witness :
  SCAPScanner.scan (H := host_without_content) scanner "cis" None None ∅
  = (None, {[ temp_path := Raise ParseError ]}).
Proof.
  destruct (scan_failure_keeps_temp_file (H := host_without_content) scanner "cis"
              None None ∅ {[ temp_path := Raise ParseError ]} temp_path)
    as [Hnone _]; [reflexivity|].
  apply Hnone. reflexivity.
Defined.

(** The total of a stored record reads back. *)
Lemma update_metrics_reads_back_witness :
  g_total_rules (registry (update_metrics PrometheusExporter.init
                             (record_for "host1" "cis")).1)
    !! labels_of (record_for "host1" "cis")
  = Some (inject_Z 5).
Proof.
  destruct (update_metrics_reads_back PrometheusExporter.init
              (update_metrics PrometheusExporter.init (record_for "host1" "cis")).1
              (record_for "host1" "cis")) as (_ & Htotal & _); [reflexivity|].
  exact Htotal.
Defined.



(** Two records with the key a_b_c: the later one is stored. *)
Lemma latest_results_last_write_wins_witness :
  latest_results
    (update_all PrometheusExporter.init [record_for "a_b" "c"; record_for "a" "b_c"])
    !! "a_b_c"
  = Some (record_for "a" "b_c").
Proof.
  apply (latest_results_last_write_wins PrometheusExporter.init
           [record_for "a_b" "c"; record_for "a" "b_c"] "a_b_c").
  repeat constructor; by eexists.
Defined.

(** A cycle on a host whose scanner exits with 1: the temporary file is
    gone afterwards. *)
Lemma scan_and_update_removes_results_file_witness :
  (SCAPExporterDaemon.scan_and_update (H0 := host 1) 0 daemon "cis" None ∅).2 = ∅.
Proof.
  rewrite (scan_and_update_removes_results_file (H0 := host 1) 0 daemon "cis" None ∅
             {[ temp_path := Ok sample_scap_results ]} temp_path);
    [reflexivity | reflexivity | done | by eexists].
Defined.

(** The same cycle publishes the record of the sample document under the
    host name the document gives. *)
Lemma scan_and_update_publishes_record_witness :
  latest_results
    (SCAPExporterDaemon.exporter
       (SCAPExporterDaemon.scan_and_update (H0 := host 1) 0 daemon "cis" None ∅).1)
    !! "test-server_xccdf_org.ssgproject.content_profile_cis"
  = Some sample_record.
Proof.
  destruct (scan_and_update_publishes_record (H0 := host 1) 0 daemon "cis" None ∅
              {[ temp_path := Raise ParseError ]}
              {[ temp_path := Ok sample_scap_results ]}
              temp_path "/usr/share/xml/scap/ssg/content/ssg-debian12-ds.xml" ""
              "2024-01-01T12:00:00" 1 sample_record)
    as (Hlatest & _); [reflexivity | done | reflexivity | reflexivity | lia
                      | reflexivity | reflexivity |].
  exact Hlatest.
Defined.

(** Two rounds over an entry every minute and an entry without profile, on
    a host whose scanner fails: two cycles with the profile cis, two sleeps
    of 60 seconds. *)
Lemma scan_loop_schedule_witness :
  ∃ st', Daemon.scan_loop (H0 := host 3) clock0 2 scans_every_minute
           (Daemon.Loop daemon ∅ [] 0) = Ok st'
    ∧ (Daemon.daemon st', Daemon.files st')
      = cycles (H0 := host 3) clock0 0
          [Config.ScanEntry (Some "cis") None (Some 60);
           Config.ScanEntry (Some "cis") None (Some 60)] daemon ∅
    ∧ Daemon.sleeps st' = [60; 60] ∧ Daemon.scans_done st' = 2%nat.
Proof.
  assert (∃ st', Daemon.scan_loop (H0 := host 3) clock0 2 scans_every_minute
                   (Daemon.Loop daemon ∅ [] 0) = Ok st') as [st' Hst']
    by (eexists; reflexivity).
  exists st'. split; [exact Hst'|].
  destruct (scan_loop_schedule (H0 := host 3) clock0 2 scans_every_minute _ st' Hst')
    as (Hcycles & Hsleeps & Hdone & _).
  split_and!; [exact Hcycles | exact Hsleeps | exact Hdone].
Defined.

(** A list with only an entry without profile: the state stays. *)
Lemma scan_loop_skips_entries_without_profile_witness :
  Daemon.scan_loop (H0 := host 1) clock0 5 [Config.ScanEntry None None None]
    (Daemon.Loop daemon ∅ [] 0)
  = Ok (Daemon.Loop daemon ∅ [] 0).
Proof.
  apply (scan_loop_skips_entries_without_profile (H0 := host 1)). reflexivity.
Defined.



(** [scans: []] in the configuration and [--scan-once] alone. *)
Lemma main_scan_once_empty_scans_witness :
  Main.main (H0 := host 1)
    (H2 := yaml_file (Ok (YamlMapping (Config.Make None None None (Some [])))))
    clock0 1 (args_scan_once None) ∅
  = Main.UncaughtIndexError.
Proof.
  apply (main_scan_once_empty_scans (H0 := host 1)
           (H2 := yaml_file (Ok (YamlMapping (Config.Make None None None (Some [])))))
           clock0 1 (args_scan_once None) ∅ (Config.Make None None None (Some [])));
    reflexivity.
Defined.

(** [--scan-once --profile cis] on a host whose scanner fails: one
    exposition is printed all the same. *)
Lemma main_scan_once_always_prints_witness :
  ∃ text fs',
    Main.main (H0 := host 3) (H2 := yaml_file (Raise FileNotFoundError))
      clock0 1 (args_scan_once (Some "cis")) ∅
    = Main.Returns (Main.Result [text] fs').
Proof.
  destruct (main_scan_once_always_prints (H0 := host 3)
              (H2 := yaml_file (Raise FileNotFoundError))
              clock0 1 (args_scan_once (Some "cis")) ∅)
    as (d & text & _ & _ & Hmain);
    [reflexivity | reflexivity | reflexivity | by intros [=]
    | intros reg; eexists; reflexivity |].
  eexists _, _. exact Hmain.
Defined.

(** [--results-file results.xml] over the sample document. *)
Lemma main_results_file_mode_witness :
  ∃ out,
    Main.main (H0 := host 1) (H2 := yaml_file (Raise FileNotFoundError))
      clock0 1 args_results_file (one_file "results.xml" sample_scap_results)
    = Main.Returns out
    ∧ Main.files out = one_file "results.xml" sample_scap_results.
Proof.
  exists (Main.Result [Reference.families]
            (one_file "results.xml" sample_scap_results)).
  split; [reflexivity|].
  apply (main_results_file_mode (H0 := host 1)
           (H2 := yaml_file (Raise FileNotFoundError))
           clock0 1 args_results_file (one_file "results.xml" sample_scap_results));
    reflexivity.
Defined.

(** The sample file in place: the server starts and [/metrics] is not
    answered 503. *)
Lemma metrics_server_serves_after_update_witness :
  MetricsServer.main 0 (one_file "sample_scap_results.xml" sample_scap_results)
  = Ok (MetricsServer.State (Some (update_metrics PrometheusExporter.init
                                     sample_record).1) true)
  ∧ status (MetricsHandler.do_GET
              (Some (update_metrics PrometheusExporter.init sample_record).1)
              "/metrics") ≠ 503.
Proof.
  assert (MetricsServer.main 0 (one_file "sample_scap_results.xml" sample_scap_results)
          = Ok (MetricsServer.State (Some (update_metrics PrometheusExporter.init
                                             sample_record).1) true)) as Hmain
    by reflexivity.
  split; [exact Hmain|].
  destruct (metrics_server_serves_after_update 0
              (one_file "sample_scap_results.xml" sample_scap_results) _ Hmain)
    as [Hserving _].
  destruct (Hserving eq_refl) as (r & e & _ & _ & _ & Hstatus).
  apply Hstatus.
Defined.
